(** * Verification of the auth route surface of fasthtml_toolbox

  The development embeds [auth/routes.py] (class [AuthRoutes]) and
  [auth/database.py] (class [AuthDatabase]) and proves the behavioural
  claims of the specification about them.

  Conventions of the embedding.
  - A Python [str] is a Rocq [string]; each character stands for one code
    point below 256.
  - A Python [dict] with string keys is a [gmap string _].
  - The handlers run in a small state monad over the session mapping, the
    repository store and the log of repository calls they make. *)

From Stdlib Require Import ZArith Ascii String.
From stdpp Require Import gmap strings list fin_maps.

Open Scope string_scope.
Open Scope list_scope.
Open Scope Z_scope.

(** ** Python strings: [str.strip] *)

Module PyStr.

(** [str.isspace] for one code point in the range modelled here:
    U+0009..U+000D, U+001C..U+001F, U+0020, U+0085 and U+00A0. *)
Definition isspace (c : ascii) : bool :=
  let n := Ascii.N_of_ascii c in
  ((9 <=? n) && (n <=? 13) || (28 <=? n) && (n <=? 32)
   || (n =? 133) || (n =? 160))%N.

Fixpoint all_space (s : string) : bool :=
  match s with
  | EmptyString => true
  | String c s' => isspace c && all_space s'
  end.

Definition is_empty (s : string) : bool :=
  match s with EmptyString => true | String _ _ => false end.

(** [str.lstrip()]: drop code points from the left while they are space. *)
Fixpoint lstrip (s : string) : string :=
  match s with
  | EmptyString => EmptyString
  | String c s' => if isspace c then lstrip s' else s
  end.

(** [str.rstrip()]: a character is dropped when it is a space and
    everything to its right has been dropped. *)
Fixpoint rstrip (s : string) : string :=
  match s with
  | EmptyString => EmptyString
  | String c s' =>
      let r := rstrip s' in
      if is_empty r && isspace c then EmptyString else String c r
  end.

(** [str.strip()] with no argument. *)
Definition strip (s : string) : string := rstrip (lstrip s).

(** Last character of a string, if any. *)
Fixpoint last_char (s : string) : option ascii :=
  match s with
  | EmptyString => None
  | String c EmptyString => Some c
  | String _ s' => last_char s'
  end.

Definition first_char (s : string) : option ascii :=
  match s with EmptyString => None | String c _ => Some c end.

End PyStr.
Import PyStr.


(** ** Data model *)

(** A Python value stored in the session mapping: the handlers store strings
    (username, role) and an integer (the user's id). *)
Inductive value :=
| VStr (s : string)
| VInt (n : Z).

(** Modelled from the spec: the [User] dataclass of [auth/models.py], which
    is not part of the sources; the fields are those of the data model
    section (the source's [id] field is [uid] here). *)
Record User := mkUser {
  uid : Z;
  username : string;
  email : string;
  password : string;
  role : string;
  active : bool;
  created_at : string;
  last_login : string
}.

(** Markup built by the form helpers of [auth/forms.py]; rendering is outside
    the routes module, so a component records the helper called and the
    arguments it was given. *)
Inductive Component :=
| create_login_form (error : option string) (action : string)
| create_register_form (error : option string) (action : string)
| create_forgot_password_form (error success : option string) (action : string)
| create_profile_form (user : User) (success error : option string)
    (action : string)
| Container (c : Component).

(** What a handler returns: a redirect, or a titled page. *)
Inductive Response :=
| RedirectResponse (url : string) (status_code : Z)
| Page (title : string) (body : Component).

(** The parts of a request the handlers read: the path, the query string, the
    submitted form ([await req.form()]) and the entries of [req.scope] that
    hold user objects. *)
Record Request := mkRequest {
  path : string;
  query_params : gmap string string;
  form : gmap string string;
  scope : gmap string User
}.

(** One call on [self.auth.user_repo], with the arguments passed. *)
Inductive RepoCall :=
| CallGetById (i : Z)
| CallGetByUsername (name : string)
| CallCreate (name mail pass : string)
| CallAuthenticate (name pass : string).

Definition is_create (c : RepoCall) : bool :=
  match c with CallCreate _ _ _ => true | _ => false end.

(** The repository the routes talk to ([auth/repository.py], not part of the
    sources) is a parameter of the handlers: any store type [S] with the four
    operations the routes and the gate use.  Following the spec, the two
    lookups only read the store; [create] and [authenticate] may change it. *)
Class UserRepository (S : Type) := {
  get_by_id : Z → S → option User;
  get_by_username : string → S → option User;
  create : string → string → string → S → option User * S;
  authenticate : string → string → S → option User * S
}.

(** ** The handler monad *)

(** The world a handler runs in: the session mapping [sess], the repository
    store, and the log of repository calls made so far. *)
Record World (S : Type) := mkWorld {
  sess : gmap string value;
  store : S;
  calls : list RepoCall
}.
Arguments mkWorld {S} _ _ _.
Arguments sess {S} _.
Arguments store {S} _.
Arguments calls {S} _.

Definition M (S A : Type) : Type := World S → A * World S.

Definition ret {S A} (a : A) : M S A := λ w, (a, w).

Definition bind {S A B} (m : M S A) (k : A → M S B) : M S B :=
  λ w, let '(a, w') := m w in k a w'.

Notation "'let!' x ':=' m 'in' k" := (bind m (λ x, k))
  (at level 10, x name, m at level 100, k at level 200).
Notation "m ';;' k" := (bind m (λ _, k))
  (at level 100, k at level 200, right associativity).

(** [sess[k] = v] *)
Definition sess_set {S} (k : string) (v : value) : M S unit :=
  λ w, (tt, mkWorld (<[k := v]> (sess w)) (store w) (calls w)).

(** [sess.clear()] *)
Definition sess_clear {S} : M S unit :=
  λ w, (tt, mkWorld ∅ (store w) (calls w)).

(** [sess.get(k)] *)
Definition sess_get {S} (k : string) : M S (option value) :=
  λ w, (sess w !! k, w).

Section RepoCalls.
Context {S : Type} `{UserRepository S}.

Definition call_get_by_id (i : Z) : M S (option User) :=
  λ w, (get_by_id i (store w),
        mkWorld (sess w) (store w) (calls w ++ [CallGetById i])).

Definition call_get_by_username (name : string) : M S (option User) :=
  λ w, (get_by_username name (store w),
        mkWorld (sess w) (store w) (calls w ++ [CallGetByUsername name])).

Definition call_create (name mail pass : string) : M S (option User) :=
  λ w, let '(u, st) := create name mail pass (store w) in
       (u, mkWorld (sess w) st (calls w ++ [CallCreate name mail pass])).

Definition call_authenticate (name pass : string) : M S (option User) :=
  λ w, let '(u, st) := authenticate name pass (store w) in
       (u, mkWorld (sess w) st (calls w ++ [CallAuthenticate name pass])).

End RepoCalls.

(** [d.get(k, dflt)] on a mapping of strings. *)
Definition dict_get (d : gmap string string) (k dflt : string) : string :=
  default dflt (d !! k).

(** ** [auth/routes.py]: the handlers

    Each handler is the closure defined inside its [_register_*] method; the
    [prefix] it captures is its first argument here. *)

Section Handlers.
Context {S : Type} `{UserRepository S}.

(** GET [{prefix}/login] *)
Definition login_page (prefix : string) (req : Request) : M S Response :=
  let error := query_params req !! "error" in
  ret (Page "Login"
         (Container (create_login_form error (prefix +:+ "/login")))).

(** POST [{prefix}/login] *)
Definition login_submit (prefix : string) (req : Request) : M S Response :=
  let form := form req in
  let username_ := strip (dict_get form "username" "") in
  let password_ := dict_get form "password" "" in
  let! user := call_authenticate username_ password_ in
  match user with
  | Some user =>
      sess_set "auth" (VStr (username user)) ;;
      sess_set "user_id" (VInt (uid user)) ;;
      sess_set "role" (VStr (role user)) ;;
      let next_url := dict_get form "next" "/" in
      ret (RedirectResponse next_url 303)
  | None =>
      ret (RedirectResponse (prefix +:+ "/login?error=invalid") 303)
  end.

(** [{prefix}/logout] *)
Definition logout (prefix : string) : M S Response :=
  sess_clear ;;
  ret (RedirectResponse (prefix +:+ "/login") 303).

(** GET [{prefix}/register] *)
Definition register_page (prefix : string) (req : Request) : M S Response :=
  let error := query_params req !! "error" in
  ret (Page "Register"
         (Container (create_register_form error (prefix +:+ "/register")))).

(** POST [{prefix}/register] *)
Definition register_submit (prefix : string) (req : Request) : M S Response :=
  let form := form req in
  let username_ := strip (dict_get form "username" "") in
  let email_ := strip (dict_get form "email" "") in
  let password_ := dict_get form "password" "" in
  let confirm := dict_get form "confirm_password" "" in
  if negb (String.eqb password_ confirm) then
    ret (RedirectResponse (prefix +:+ "/register?error=password_mismatch") 303)
  else
    let! existing := call_get_by_username username_ in
    match existing with
    | Some _ =>
        ret (RedirectResponse (prefix +:+ "/register?error=username_taken") 303)
    | None =>
        let! user := call_create username_ email_ password_ in
        match user with
        | Some user =>
            sess_set "auth" (VStr (username user)) ;;
            sess_set "user_id" (VInt (uid user)) ;;
            sess_set "role" (VStr (role user)) ;;
            ret (RedirectResponse "/" 303)
        | None =>
            ret (RedirectResponse
                   (prefix +:+ "/register?error=creation_failed") 303)
        end
    end.

(** GET [{prefix}/forgot] *)
Definition forgot_page (prefix : string) (req : Request) : M S Response :=
  let error := query_params req !! "error" in
  let success := query_params req !! "success" in
  ret (Page "Forgot Password"
         (create_forgot_password_form error success (prefix +:+ "/forgot"))).

(** GET [{prefix}/profile]; [req.scope['user']] raises [KeyError] when the
    key is absent, which is the [None] result. *)
Definition profile_page (prefix : string) (req : Request)
  : M S (option Response) :=
  match scope req !! "user" with
  | None => ret None
  | Some user =>
      let success := query_params req !! "success" in
      let error := query_params req !! "error" in
      ret (Some (Page "Profile"
                   (create_profile_form user success error
                      (prefix +:+ "/profile"))))
  end.

End Handlers.

(** A response is a see-other redirect. *)
Definition is_see_other (r : Response) : Prop :=
  ∃ url, r = RedirectResponse url 303.

(** Shorthands for the statements: the values [login_submit] and
    [register_submit] compute from the form before they call the
    repository. *)
Definition login_name (req : Request) : string :=
  strip (dict_get (form req) "username" "").

Definition login_pass (req : Request) : string :=
  dict_get (form req) "password" "".

Definition register_name (req : Request) : string :=
  strip (dict_get (form req) "username" "").

Definition register_email (req : Request) : string :=
  strip (dict_get (form req) "email" "").

Definition register_pass (req : Request) : string :=
  dict_get (form req) "password" "".

Definition register_confirm (req : Request) : string :=
  dict_get (form req) "confirm_password" "".

(** The session after the three assignments [sess['auth']],
    [sess['user_id']] and [sess['role']], in the order of the source. *)
Definition logged_in_as (user : User) (s : gmap string value)
  : gmap string value :=
  <["role" := VStr (role user)]>
    (<["user_id" := VInt (uid user)]>
       (<["auth" := VStr (username user)]> s)).

(** ** [auth/routes.py]: route registration *)

(** A value of the configuration dict [self.auth.config]. *)
Inductive cfg_val :=
| CNone
| CBool (b : bool)
| CStr (s : string)
| CList (l : list string).

(** Python truthiness of a configuration value. *)
Definition truthy (v : cfg_val) : bool :=
  match v with
  | CNone => false
  | CBool b => b
  | CStr s => negb (is_empty s)
  | CList l => match l with [] => false | _ :: _ => true end
  end.

(** [config.get(k)]: [None] when the key is absent. *)
Definition cfg_get (config : gmap string cfg_val) (k : string) : cfg_val :=
  default CNone (config !! k).

(** [config.get(k, False)] *)
Definition cfg_get_or_false (config : gmap string cfg_val) (k : string)
  : cfg_val :=
  default (CBool false) (config !! k).

(** The handler functions, as the values stored in route tables. *)
Inductive Handler :=
| h_login_page
| h_login_submit
| h_logout
| h_register_page
| h_register_submit
| h_forgot_page
| h_profile_page.

(** One [rt(path, methods=...)] registration on the app; [methods] is [None]
    when the decorator is called without the keyword. *)
Record Route := mkRoute {
  route_path : string;
  route_methods : option (list string);
  route_handler : Handler
}.

(** State threaded through registration: the dict [self.routes] and the
    app's route table, in registration order. *)
Record Reg := mkReg {
  routes : gmap string Handler;
  app_routes : list Route
}.

(** [@rt(path, methods=ms)] applied to [h] *)
Definition rt (p : string) (ms : option (list string)) (h : Handler)
  (r : Reg) : Reg :=
  mkReg (routes r) (app_routes r ++ [mkRoute p ms h]).

(** [self.routes[name] = h] *)
Definition set_route (name : string) (h : Handler) (r : Reg) : Reg :=
  mkReg (<[name := h]> (routes r)) (app_routes r).

(** [AuthRoutes.__init__]: [self.routes = {}], on an app with the route
    table [app]. *)
Definition AuthRoutes_init (app : list Route) : Reg := mkReg ∅ app.

Definition _register_login_routes (prefix : string) (r : Reg) : Reg :=
  let r := rt (prefix +:+ "/login") (Some ["GET"]) h_login_page r in
  let r := set_route "login_page" h_login_page r in
  let r := rt (prefix +:+ "/login") (Some ["POST"]) h_login_submit r in
  set_route "login_submit" h_login_submit r.

Definition _register_logout_route (prefix : string) (r : Reg) : Reg :=
  let r := rt (prefix +:+ "/logout") None h_logout r in
  set_route "logout" h_logout r.

Definition _register_registration_routes (config : gmap string cfg_val)
  (prefix : string) (r : Reg) : Reg :=
  if truthy (cfg_get_or_false config "allow_registration") then
    let r := rt (prefix +:+ "/register") (Some ["GET"]) h_register_page r in
    let r := rt (prefix +:+ "/register") (Some ["POST"]) h_register_submit r in
    let r := set_route "register_page" h_register_page r in
    set_route "register_submit" h_register_submit r
  else r.

Definition _register_password_reset_routes (config : gmap string cfg_val)
  (prefix : string) (r : Reg) : Reg :=
  if truthy (cfg_get_or_false config "allow_password_reset") then
    let r := rt (prefix +:+ "/forgot") (Some ["GET"]) h_forgot_page r in
    set_route "forgot_password" h_forgot_page r
  else r.

Definition _register_profile_route (prefix : string) (r : Reg) : Reg :=
  rt (prefix +:+ "/profile") (Some ["GET"]) h_profile_page r.

(** [register_all(app, prefix)]: returns [self.routes] and leaves the
    registrations on the app. *)
Definition register_all (config : gmap string cfg_val) (prefix : string)
  (r : Reg) : gmap string Handler * Reg :=
  let r := _register_login_routes prefix r in
  let r := _register_logout_route prefix r in
  let r := _register_profile_route prefix r in
  let r := if truthy (cfg_get config "allow_registration")
           then _register_registration_routes config prefix r else r in
  let r := if truthy (cfg_get config "allow_password_reset")
           then _register_password_reset_routes config prefix r else r in
  (routes r, r).

(** The default of the [prefix] keyword of [register_all]. *)
Definition default_prefix : string := "/auth".

(** The routes a call added to an app whose table was [before]. *)
Definition added (before : list Route) (r : Reg) : list Route :=
  drop (length before) (app_routes r).

Definition handlers_of (l : list Route) : list Handler :=
  route_handler <$> l.

(** A route answers the method [m] under an explicit [methods] list. *)
Definition lists_method (m : string) (rte : Route) : Prop :=
  ∃ ms, route_methods rte = Some ms ∧ m ∈ ms.

(** ** [auth/database.py] *)

(** Modelled from the spec: the storage collaborator (fastlite) and the model
    classes of [auth/models.py], neither part of the sources.  A model class
    is its table name, field names and primary key; a table is created from
    a model and holds rows; a database maps table names to tables. *)
Record Model := mkModel {
  model_name : string;
  model_fields : list string;
  model_pk : string
}.

Record Table := mkTable {
  tbl_fields : list string;
  tbl_pk : string;
  tbl_rows : list (gmap string value)
}.

(** Modelled from the spec: [db.create(cls, pk=...)] of the storage
    collaborator, as the comment in [initialize_auth_tables] states it: the
    table is created if it does not exist, otherwise the current table is
    returned.  The result is the table's name, the handle under which the
    live table is reached in the database; [pk] defaults to ["id"]. *)
Definition db_create (cls : Model) (pk : option string)
  (db : gmap string Table) : string * gmap string Table :=
  match db !! model_name cls with
  | Some _ => (model_name cls, db)
  | None =>
      (model_name cls,
       <[model_name cls := mkTable (model_fields cls) (default "id" pk) []]> db)
  end.

(** The fields of an [AuthDatabase] object.  [users], [sessions] and
    [audit_log] are table references, [None] until populated. *)
Record AuthDatabase := mkAuthDatabase {
  db : gmap string Table;
  db_path : string;
  users : option string;
  sessions : option string;
  audit_log : option string
}.

(** [AuthDatabase.__init__(db_path)], on the database found at that path. *)
Definition AuthDatabase_init (p : string) (on_disk : gmap string Table)
  : AuthDatabase :=
  mkAuthDatabase on_disk p None None None.

Section Database.
(** The two model classes imported from [.models]. *)
Variables User_model Session_model : Model.

(** [initialize_auth_tables(self)]: the updated object and the returned
    [self.db]. *)
Definition initialize_auth_tables (self : AuthDatabase)
  : AuthDatabase * gmap string Table :=
  let '(users_, db1) :=
    db_create User_model (Some (model_pk User_model)) (db self) in
  let '(sessions_, db2) := db_create Session_model None db1 in
  let self' :=
    mkAuthDatabase db2 (db_path self) (Some users_) (Some sessions_)
      (audit_log self) in
  (self', db self').

(** [get_db(self)] *)
Definition get_db (self : AuthDatabase) : gmap string Table := db self.

End Database.

(** ** The repository and the access gate, from the specification *)

(** Modelled from the spec: the hashing primitives of the credential model
    ([auth/models.py], not part of the sources), taken as a parameter. *)
Record Hasher := mkHasher {
  hash_password : string → string;
  verify_password : string → string → bool;
  is_hashed : string → bool
}.

(** Modelled from the spec: password normalisation of the credential model's
    constructor: a value that already has the hash signature is kept, any
    other value is hashed. *)
Definition normalize_password (h : Hasher) (p : string) : string :=
  if is_hashed h p then p else hash_password h p.

(** Modelled from the spec: the user collection of [auth/repository.py]
    (not part of the sources): the rows in insertion order, the next id the
    storage assigns, and the current time stamp. *)
Record Store := mkStore {
  rows : list User;
  next_id : Z;
  now : string
}.

Definition ref_get_by_id (i : Z) (st : Store) : option User :=
  List.find (λ u, uid u =? i) (rows st).

Definition ref_get_by_username (name : string) (st : Store) : option User :=
  List.find (λ u, String.eqb (username u) name) (rows st).

(** Modelled from the spec: [create] fails when the username exists and
    leaves the store as it is; otherwise it inserts the new record with a
    hashed password, the default role and a fresh id. *)
Definition ref_create (h : Hasher) (name mail pass : string) (st : Store)
  : option User * Store :=
  match ref_get_by_username name st with
  | Some _ => (None, st)
  | None =>
      let u := mkUser (next_id st) name mail (normalize_password h pass)
                 "user" true (now st) (now st) in
      (Some u, mkStore (rows st ++ [u]) (next_id st + 1) (now st))
  end.

Definition touch_login (t : string) (u : User) : User :=
  mkUser (uid u) (username u) (email u) (password u) (role u) (active u)
    (created_at u) t.

(** Modelled from the spec: [authenticate] returns nothing for an absent
    user, an inactive user or a failed verification; on success it updates
    [last_login] and returns the record. *)
Definition ref_authenticate (h : Hasher) (name pass : string) (st : Store)
  : option User * Store :=
  match ref_get_by_username name st with
  | None => (None, st)
  | Some u =>
      if active u && verify_password h pass (password u) then
        let u' := touch_login (now st) u in
        (Some u',
         mkStore ((λ x, if uid x =? uid u then u' else x) <$> rows st)
           (next_id st) (now st))
      else (None, st)
  end.

Definition ref_repo (h : Hasher) : UserRepository Store := {|
  get_by_id := ref_get_by_id;
  get_by_username := ref_get_by_username;
  create := ref_create h;
  authenticate := ref_authenticate h
|}.

(** Modelled from the spec: the configuration the access gate reads. *)
Record GateConfig := mkGateConfig {
  login_path : string;
  public_paths : list string
}.

(** Modelled from the spec: the three classes of a request. *)
Inductive GateState := PUBLIC | UNAUTHENTICATED | AUTHENTICATED.

(** Modelled from the spec: a path is public when a configured path equals
    it or is a prefix of it. *)
Definition is_public (cfg : GateConfig) (p : string) : bool :=
  existsb (λ q, String.prefix q p) (public_paths cfg).

Definition attach_user (req : Request) (u : User) : Request :=
  mkRequest (path req) (query_params req) (form req)
    (<["user" := u]> (scope req)).

Definition login_redirect (cfg : GateConfig) (req : Request) : Response :=
  RedirectResponse (login_path cfg +:+ "?next=" +:+ path req) 303.

Section Gate.
Context {S : Type} `{UserRepository S}.

(** Modelled from the spec: the access gate (beforeware) of
    [auth/middleware.py], which is not part of the sources.  It returns the
    class of the request, the request as the handler will see it, and the
    response that aborts the request, if any. *)
Definition access_gate (cfg : GateConfig) (req : Request)
  : M S (GateState * Request * option Response) :=
  if is_public cfg (path req) then ret (PUBLIC, req, None)
  else
    let! stored := sess_get "user_id" in
    match stored with
    | Some (VInt i) =>
        let! u := call_get_by_id i in
        match u with
        | Some u =>
            if active u then ret (AUTHENTICATED, attach_user req u, None)
            else
              sess_clear ;;
              ret (UNAUTHENTICATED, req, Some (login_redirect cfg req))
        | None =>
            sess_clear ;;
            ret (UNAUTHENTICATED, req, Some (login_redirect cfg req))
        end
    | _ => ret (UNAUTHENTICATED, req, Some (login_redirect cfg req))
    end.

End Gate.

(** ** Example data *)

Module Fixture.

(** A stand-in for the hashing primitives, used only to build example
    stores: the hash of [p] is [p] behind a fixed marker. *)
Definition hasher : Hasher := {|
  hash_password := λ p, "$2b$" +:+ p;
  verify_password := λ plain hashed, String.eqb hashed ("$2b$" +:+ plain);
  is_hashed := String.prefix "$2b$"
|}.

#[export] Instance repo : UserRepository Store := ref_repo hasher.

Definition stamp : string := "2025-01-01T00:00:00".

Definition alice : User :=
  mkUser 1 "alice" "alice@example.com" "$2b$secret123" "user" true stamp stamp.

Definition store0 : Store := mkStore [alice] 2 "2025-06-01T12:00:00".

Definition world0 : World Store := mkWorld ∅ store0 [].

Definition post (fields : list (string * string)) : Request :=
  mkRequest "/auth/submit" ∅ (list_to_map fields) ∅.

(** alice with the right password, asking to go back to [/reports]. *)
Definition login_ok : Request :=
  post [("username", " alice "); ("password", "secret123");
        ("next", "/reports")].

Definition login_bad : Request :=
  post [("username", "alice"); ("password", "wrong")].

Definition login_unknown : Request :=
  post [("username", "nobody"); ("password", "secret123")].

(** The right password behind one space. *)
Definition login_padded_password : Request :=
  post [("username", "alice"); ("password", " secret123")].

Definition login_plain : Request :=
  post [("username", "alice"); ("password", "secret123");
        ("next", "/reports")].

(** A taken username submitted with two different passwords. *)
Definition register_taken_mismatch : Request :=
  post [("username", "alice"); ("email", "a@example.com");
        ("password", "pw-one"); ("confirm_password", "pw-two")].

Definition register_taken : Request :=
  post [("username", "alice"); ("email", "a@example.com");
        ("password", "pw-one"); ("confirm_password", "pw-one")].

Definition register_new : Request :=
  post [("username", " bob"); ("email", "bob@example.com ");
        ("password", "hunter22"); ("confirm_password", "hunter22")].

Definition gate_cfg : GateConfig := mkGateConfig "/auth/login" ["/about"].

Definition logged_in : World Store :=
  mkWorld (<["role" := VStr "user"]>
             (<["user_id" := VInt 1]> (<["auth" := VStr "alice"]> ∅)))
    store0 [].

Definition profile_request : Request :=
  mkRequest "/auth/profile" ∅ ∅ ∅.

End Fixture.

(** Modelled from the spec: dispatch of a registered handler, as the
    route-registration collaborator performs it: a route's handler value is
    the closure of that name; a raised exception is [None]. *)
Definition run_handler {S} `{UserRepository S} (h : Handler)
  (prefix : string) (req : Request) : M S (option Response) :=
  match h with
  | h_login_page => let! r := login_page prefix req in ret (Some r)
  | h_login_submit => let! r := login_submit prefix req in ret (Some r)
  | h_logout => let! r := logout prefix in ret (Some r)
  | h_register_page => let! r := register_page prefix req in ret (Some r)
  | h_register_submit => let! r := register_submit prefix req in ret (Some r)
  | h_forgot_page => let! r := forgot_page prefix req in ret (Some r)
  | h_profile_page => profile_page prefix req
  end.

(** ** [test_auth.py]: the home page *)

(** Markup as the FastHTML tag functions build it: a tag with its keyword
    attributes and its children, or a bare string child. *)
#[warnings="-register-all"]
Inductive FT :=
| Text (s : string)
| Tag (tag : string) (attrs : list (string * string)) (children : list FT).

(** [home(req)]: [req.scope.get('user')] is [None] when the key is absent,
    so this handler has no failing path; it returns the title and the
    container. *)
Definition home (req : Request) : FT * FT :=
  match scope req !! "user" with
  | Some user =>
      (Tag "title" [] [Text "Home"],
       Tag "container" []
         [Tag "h1" [] [Text ("Welcome, " +:+ username user +:+ "!")];
          Tag "p" [] [Text ("Role: " +:+ role user)];
          Tag "div" []
            [Tag "a" [("href", "/auth/profile"); ("cls", "btn")]
               [Text "Profile"];
             Text " | ";
             Tag "a" [("href", "/auth/logout"); ("cls", "btn")]
               [Text "Logout"]]])
  | None =>
      (Tag "title" [] [Text "Home"],
       Tag "container" []
         [Tag "h1" [] [Text "Welcome!"];
          Tag "p" []
            [Text "Please ";
             Tag "a" [("href", "/auth/login")] [Text "login"];
             Text " to continue."]])
  end.

(** The [href] values of an attribute list. *)
Definition href_of (attrs : list (string * string)) : list string :=
  snd <$> filter (λ kv, kv.1 = "href") attrs.

(** The targets of all anchors of a piece of markup, in document order. *)
Fixpoint hrefs (t : FT) : list string :=
  match t with
  | Text _ => []
  | Tag tag attrs children =>
      (if String.eqb tag "a" then href_of attrs else [])
      ++ flat_map hrefs children
  end.

(** All text children of a piece of markup, in document order. *)
Fixpoint texts (t : FT) : list string :=
  match t with
  | Text s => [s]
  | Tag _ _ children => flat_map texts children
  end.

(** ** [test_package.py] and [test_admin_interface.py]: the test runner *)

(** What calling one test function gives: the boolean it returns, or an
    exception. *)
Inductive TestOutcome :=
| Returned (b : bool)
| Crashed.

(** The loop of [main]: a crashed test appends [False]. *)
Definition collect_results (outs : list TestOutcome) : list bool :=
  (λ o, match o with Returned b => b | Crashed => false end) <$> outs.

(** Python's [sum] over booleans, from 0, left to right. *)
Definition py_sum (l : list bool) : Z :=
  fold_left (λ acc (b : bool), acc + (if b then 1 else 0)) l 0.

(** [main()]: [passed == total]. *)
Definition main (outs : list TestOutcome) : bool :=
  let results := collect_results outs in
  let passed := py_sum results in
  let total := Z.of_nat (length results) in
  passed =? total.

(** [exit(0 if success else 1)] *)
Definition exit_code (success : bool) : Z := if success then 0 else 1.

(** A string that neither starts nor ends with whitespace (the empty string
    included): what is left of a name once the whitespace around it is
    gone. *)
Definition trimmed (s : string) : bool :=
  match first_char s, last_char s with
  | Some a, Some b => negb (isspace a) && negb (isspace b)
  | _, _ => true
  end.

(** ** Observations on pages and route tables *)

(** The [action] a form component was built with. *)
Fixpoint form_action (c : Component) : string :=
  match c with
  | create_login_form _ a => a
  | create_register_form _ a => a
  | create_forgot_password_form _ _ a => a
  | create_profile_form _ _ _ a => a
  | Container c => form_action c
  end.

(** The [action] of the form on a page; a redirect has none. *)
Definition page_action (r : Response) : option string :=
  match r with
  | Page _ body => Some (form_action body)
  | RedirectResponse _ _ => None
  end.

#[global] Instance Handler_eq_dec : EqDecision Handler.
Proof. solve_decision. Defined.

(** The path and the methods of a route, the pair a request is matched
    against. *)
Definition route_key (rte : Route) : string * option (list string) :=
  (route_path rte, route_methods rte).

(** ** More example data *)

Module Sample.

Definition carol : User :=
  mkUser 2 "carol" "carol@example.com" "$2b$opensesame" "manager" true
    Fixture.stamp Fixture.stamp.

Definition store2 : Store :=
  mkStore [Fixture.alice; carol] 3 "2025-06-01T12:00:00".

(** A session that still holds a key of some other application. *)
Definition stale_world : World Store :=
  mkWorld (<["cart" := VInt 7]> (<["auth" := VStr "mallory"]> ∅)) store2 [].

Definition login_carol : Request :=
  Fixture.post [("username", "carol"); ("password", "opensesame")].

(** A form with no field at all. *)
Definition empty_form : Request := Fixture.post [].

(** alice's name again, behind a tab and before two spaces. *)
Definition register_padded_alice : Request :=
  Fixture.post [("username", String "009"%char "alice  ");
                ("email", "other@example.com");
                ("password", "pw"); ("confirm_password", "pw")].

(** A blank username and no password. *)
Definition blank_login : Request := Fixture.post [("username", "   ")].

Definition empty_world : World Store :=
  mkWorld ∅ (mkStore [] 1 "2025-06-01T12:00:00") [].

(** Modelled from the spec: the two model classes, with the fields of the
    data model section. *)
Definition user_model : Model :=
  mkModel "user"
    ["id"; "username"; "email"; "password"; "role"; "active"; "created_at";
     "last_login"] "id".

Definition session_model : Model :=
  mkModel "session" ["token"; "user_id"; "created_at"; "expires_at"] "token".

Definition fresh_db : AuthDatabase := AuthDatabase_init "data/app.db" ∅.

(** A database in which both tables exist and the user table has a row. *)
Definition populated_db : AuthDatabase :=
  AuthDatabase_init "data/app.db"
    (<["session" := mkTable ["token"; "user_id"] "token" []]>
       (<["user" := mkTable ["id"; "username"] "id"
                      [<["username" := VStr "admin"]> (<["id" := VInt 1]> ∅)]]>
          ∅)).

End Sample.

(** * Proofs *)

(** Unfolds a handler down to the world it returns. *)
Ltac run_monad :=
  unfold login_submit, register_submit, logout, profile_page, access_gate,
    login_page, register_page, forgot_page, run_handler;
  unfold bind, ret, call_authenticate, call_get_by_username, call_create,
    call_get_by_id, sess_set, sess_clear, sess_get;
  simpl.

Section StripFacts.

(** stdpp keeps [append] from unfolding under [simpl]; its two equations
    are used as rewrite rules instead. *)
Lemma append_nil_l s : "" +:+ s = s.
Proof. reflexivity. Qed.

Lemma append_cons c s t : String c s +:+ t = String c (s +:+ t).
Proof. reflexivity. Qed.

Lemma append_nil_r s : s +:+ "" = s.
Proof. induction s as [|c s IH]; [done|]. by rewrite append_cons, IH. Qed.

Lemma append_assoc s t u : (s +:+ t) +:+ u = s +:+ (t +:+ u).
Proof.
  induction s as [|c s IH]; [done|]. by rewrite !append_cons, IH.
Qed.

Lemma append_inv_head p s t : p +:+ s = p +:+ t → s = t.
Proof.
  induction p as [|c p IH]; [done|].
  rewrite !append_cons. intros [= H]. auto.
Qed.

Lemma lstrip_all_space s : all_space s = true → lstrip s = "".
Proof.
  induction s as [|c s IH]; simpl; [done|].
  intros [Hc Hs]%andb_true_iff. rewrite Hc. auto.
Qed.

Lemma rstrip_all_space s : all_space s = true → rstrip s = "".
Proof.
  induction s as [|c s IH]; simpl; [done|].
  intros [Hc Hs]%andb_true_iff. rewrite (IH Hs), Hc. done.
Qed.

Lemma lstrip_pad l s : all_space l = true → lstrip (l +:+ s) = lstrip s.
Proof.
  induction l as [|c l IH]; [done|]. rewrite append_cons. simpl.
  intros [Hc Hl]%andb_true_iff. rewrite Hc. auto.
Qed.

Lemma rstrip_pad s r : all_space r = true → rstrip (s +:+ r) = rstrip s.
Proof.
  intros Hr. induction s as [|c s IH].
  - rewrite append_nil_l. by apply rstrip_all_space.
  - rewrite append_cons. simpl. by rewrite IH.
Qed.

Lemma strip_pad_right s r :
  all_space r = true → strip (s +:+ r) = strip s.
Proof.
  intros Hr. unfold strip. induction s as [|c s IH].
  - rewrite append_nil_l. by rewrite (lstrip_all_space r Hr).
  - rewrite append_cons. simpl. destruct (isspace c); [done|].
    rewrite <- append_cons. by apply rstrip_pad.
Qed.

(** Surrounding whitespace never survives [strip]. *)
Lemma strip_pad l s r :
  all_space l = true → all_space r = true →
  strip (l +:+ s +:+ r) = strip s.
Proof.
  intros Hl Hr. unfold strip. rewrite (lstrip_pad l _ Hl).
  by apply strip_pad_right.
Qed.

Lemma lstrip_first s c : first_char (lstrip s) = Some c → isspace c = false.
Proof.
  induction s as [|a s IH]; simpl; [done|].
  destruct (isspace a) eqn:Ha; [done|]. simpl. by intros [= <-].
Qed.

Lemma rstrip_first s c :
  first_char (rstrip s) = Some c → first_char s = Some c.
Proof.
  destruct s as [|a s]; simpl; [done|].
  by destruct (is_empty (rstrip s) && isspace a).
Qed.

Lemma rstrip_last s c : last_char (rstrip s) = Some c → isspace c = false.
Proof.
  induction s as [|a s IH]; simpl; [done|].
  destruct (rstrip s) as [|b t] eqn:Hr; simpl.
  - destruct (isspace a) eqn:Ha; simpl; [done|]. by intros [= <-].
  - exact IH.
Qed.

(** What [strip] returns neither starts nor ends with whitespace. *)
Lemma strip_trimmed s :
  (∀ c, first_char (strip s) = Some c → isspace c = false) ∧
  (∀ c, last_char (strip s) = Some c → isspace c = false).
Proof.
  split; intros c Hc.
  - apply (lstrip_first s). by apply rstrip_first.
  - by apply (rstrip_last (lstrip s)).
Qed.

Lemma lstrip_decompose s :
  ∃ l, all_space l = true ∧ s = l +:+ lstrip s.
Proof.
  induction s as [|c s [l [Hl Hs]]]; simpl.
  - by exists "".
  - destruct (isspace c) eqn:Hc.
    + exists (String c l). simpl. rewrite Hc, Hl. split; [done|].
      by rewrite append_cons, <- Hs.
    + by exists "".
Qed.

Lemma rstrip_decompose s :
  ∃ r, all_space r = true ∧ s = rstrip s +:+ r.
Proof.
  induction s as [|c s [r [Hr Hs]]]; simpl.
  - by exists "".
  - destruct (rstrip s) as [|b t] eqn:E; simpl.
    + rewrite append_nil_l in Hs. subst s.
      destruct (isspace c) eqn:Hc; simpl.
      * exists (String c r). simpl. by rewrite Hc, Hr.
      * by exists r.
    + exists r. split; [done|]. by rewrite append_cons, <- Hs.
Qed.

(** [strip] only removes whitespace, and only at the two ends. *)
Lemma strip_decompose s :
  ∃ l r, all_space l = true ∧ all_space r = true ∧
         s = l +:+ strip s +:+ r.
Proof.
  destruct (lstrip_decompose s) as [l [Hl Hs]].
  destruct (rstrip_decompose (lstrip s)) as [r [Hr Ht]].
  exists l, r. unfold strip. by rewrite <- Ht.
Qed.

Lemma strip_idemp s : strip (strip s) = strip s.
Proof.
  destruct (strip_decompose s) as [l [r [Hl [Hr Hs]]]].
  rewrite Hs at 2. by rewrite strip_pad.
Qed.

End StripFacts.

(** ** Login *)

Section LoginProofs.
Context {S : Type} `{UserRepository S}.

Lemma login_submit_fail prefix req (w : World S) st' :
  authenticate (login_name req) (login_pass req) (store w) = (None, st') →
  login_submit prefix req w =
    (RedirectResponse (prefix +:+ "/login?error=invalid") 303,
     mkWorld (sess w) st'
       (calls w ++ [CallAuthenticate (login_name req) (login_pass req)])).
Proof.
  intros Hauth. run_monad.
  unfold login_name, login_pass in Hauth. by rewrite Hauth.
Qed.

Lemma login_submit_ok prefix req (w : World S) user st' :
  authenticate (login_name req) (login_pass req) (store w)
    = (Some user, st') →
  login_submit prefix req w =
    (RedirectResponse (dict_get (form req) "next" "/") 303,
     mkWorld (logged_in_as user (sess w)) st'
       (calls w ++ [CallAuthenticate (login_name req) (login_pass req)])).
Proof.
  intros Hauth. run_monad.
  unfold login_name, login_pass in Hauth. by rewrite Hauth.
Qed.

Lemma logged_in_as_other user (s : gmap string value) k :
  k ≠ "auth" → k ≠ "user_id" → k ≠ "role" →
  logged_in_as user s !! k = s !! k.
Proof.
  intros Ha Hu Hr. unfold logged_in_as.
  by rewrite !lookup_insert_ne.
Qed.

(** C2: when [authenticate] returns nothing, [login_submit] leaves the
    session mapping as it was and answers with the see-other redirect to
    [{prefix}/login?error=invalid]; the answer is the same for any two
    failing submissions, whatever field was wrong and whether or not the
    user exists. *)
Theorem login_failure_is_generic prefix req1 (w1 : World S) st1
    req2 (w2 : World S) st2 :
  authenticate (login_name req1) (login_pass req1) (store w1) = (None, st1) →
  authenticate (login_name req2) (login_pass req2) (store w2) = (None, st2) →
  (login_submit prefix req1 w1).1
    = RedirectResponse (prefix +:+ "/login?error=invalid") 303 ∧
  sess (login_submit prefix req1 w1).2 = sess w1 ∧
  (login_submit prefix req2 w2).1 = (login_submit prefix req1 w1).1.
Proof.
  intros H1 H2.
  rewrite (login_submit_fail prefix req1 w1 st1 H1).
  rewrite (login_submit_fail prefix req2 w2 st2 H2). done.
Qed.

(** C3: when [authenticate] returns a user, [login_submit] assigns the
    session keys [auth], [user_id] and [role] from the user's username, id
    and role, leaves every other key alone, and redirects to the form's
    [next] field, or to [/] when the form has none. *)
Theorem login_success_sets_session prefix req (w : World S) user st' :
  authenticate (login_name req) (login_pass req) (store w)
    = (Some user, st') →
  let resp := (login_submit prefix req w).1 in
  let s' := sess (login_submit prefix req w).2 in
  s' !! "auth" = Some (VStr (username user)) ∧
  s' !! "user_id" = Some (VInt (uid user)) ∧
  s' !! "role" = Some (VStr (role user)) ∧
  (∀ k, k ≠ "auth" → k ≠ "user_id" → k ≠ "role" → s' !! k = sess w !! k) ∧
  (∀ url, form req !! "next" = Some url → resp = RedirectResponse url 303) ∧
  (form req !! "next" = None → resp = RedirectResponse "/" 303).
Proof.
  intros Hauth. rewrite (login_submit_ok prefix req w user st' Hauth).
  simpl. unfold logged_in_as, dict_get. repeat split.
  - by simplify_map_eq.
  - by simplify_map_eq.
  - by simplify_map_eq.
  - intros k Ha Hu Hr. by rewrite !lookup_insert_ne.
  - by intros url ->.
  - by intros ->.
Qed.

(** C9: whatever the session holds, [logout] empties it, so no key is left,
    and answers with the see-other redirect to [{prefix}/login]. *)
Theorem logout_clears_session prefix (w : World S) :
  logout prefix w =
    (RedirectResponse (prefix +:+ "/login") 303,
     mkWorld ∅ (store w) (calls w)) ∧
  (∀ k, sess (logout prefix w).2 !! k = None).
Proof. split; [done|]. intros k. run_monad. apply lookup_empty. Qed.

End LoginProofs.

(** ** Registration *)

Section RegisterProofs.
Context {S : Type} `{UserRepository S}.

Lemma register_submit_mismatch prefix req (w : World S) :
  register_pass req ≠ register_confirm req →
  register_submit prefix req w =
    (RedirectResponse (prefix +:+ "/register?error=password_mismatch") 303, w).
Proof.
  intros Hne. run_monad.
  apply String.eqb_neq in Hne.
  unfold register_pass, register_confirm in Hne. by rewrite Hne.
Qed.

Lemma register_submit_taken prefix req (w : World S) u :
  register_pass req = register_confirm req →
  get_by_username (register_name req) (store w) = Some u →
  register_submit prefix req w =
    (RedirectResponse (prefix +:+ "/register?error=username_taken") 303,
     mkWorld (sess w) (store w)
       (calls w ++ [CallGetByUsername (register_name req)])).
Proof.
  intros Heq Hu. run_monad.
  apply String.eqb_eq in Heq.
  unfold register_pass, register_confirm, register_name in *.
  rewrite Heq. simpl. by rewrite Hu.
Qed.

Lemma register_submit_created prefix req (w : World S) user st' :
  register_pass req = register_confirm req →
  get_by_username (register_name req) (store w) = None →
  create (register_name req) (register_email req) (register_pass req)
    (store w) = (Some user, st') →
  register_submit prefix req w =
    (RedirectResponse "/" 303,
     mkWorld (logged_in_as user (sess w)) st'
       (calls w ++ [CallGetByUsername (register_name req)]
          ++ [CallCreate (register_name req) (register_email req)
                (register_pass req)])).
Proof.
  intros Heq Hfree Hc. run_monad.
  apply String.eqb_eq in Heq.
  unfold register_pass, register_confirm, register_name, register_email in *.
  rewrite Heq. simpl. rewrite Hfree. simpl. rewrite Hc. simpl.
  by rewrite <- app_assoc.
Qed.

Lemma register_submit_not_created prefix req (w : World S) st' :
  register_pass req = register_confirm req →
  get_by_username (register_name req) (store w) = None →
  create (register_name req) (register_email req) (register_pass req)
    (store w) = (None, st') →
  register_submit prefix req w =
    (RedirectResponse (prefix +:+ "/register?error=creation_failed") 303,
     mkWorld (sess w) st'
       (calls w ++ [CallGetByUsername (register_name req)]
          ++ [CallCreate (register_name req) (register_email req)
                (register_pass req)])).
Proof.
  intros Heq Hfree Hc. run_monad.
  apply String.eqb_eq in Heq.
  unfold register_pass, register_confirm, register_name, register_email in *.
  rewrite Heq. simpl. rewrite Hfree. simpl. rewrite Hc. simpl.
  by rewrite <- app_assoc.
Qed.

(** C1, as the code has it: a registration whose stripped username names an
    existing user is turned away with a see-other redirect to the register
    page, carrying [username_taken] when password and confirmation agree and
    [password_mismatch] when they differ; the repository store and the
    session are left as they were, [create] is never called, and the
    existing record is still what a lookup returns. *)
Theorem register_existing_username_rejected prefix req (w : World S) u :
  get_by_username (register_name req) (store w) = Some u →
  let resp := (register_submit prefix req w).1 in
  let w' := (register_submit prefix req w).2 in
  resp = RedirectResponse
           (prefix +:+ (if String.eqb (register_pass req) (register_confirm req)
                        then "/register?error=username_taken"
                        else "/register?error=password_mismatch")) 303 ∧
  store w' = store w ∧
  sess w' = sess w ∧
  get_by_username (register_name req) (store w') = Some u ∧
  ∃ made : list RepoCall,
    calls w' = calls w ++ made ∧ Forall (λ c, is_create c = false) made.
Proof.
  intros Hu. simpl.
  destruct (String.eqb (register_pass req) (register_confirm req)) eqn:E.
  - apply String.eqb_eq in E.
    rewrite (register_submit_taken prefix req w u E Hu). simpl.
    repeat split; try done.
    exists [CallGetByUsername (register_name req)]. split; [done|].
    by repeat constructor.
  - apply String.eqb_neq in E.
    rewrite (register_submit_mismatch prefix req w E). simpl.
    repeat split; try done.
    exists []. split; [by rewrite app_nil_r | constructor].
Qed.

(** C8: a registration that gets as far as [create] and receives the new
    user back is logged in at once: the session keys [auth], [user_id] and
    [role] hold the new user's username, id and role, every other key is
    left alone, and the answer is the see-other redirect to [/]. *)
Theorem register_success_logs_in prefix req (w : World S) user st' :
  register_pass req = register_confirm req →
  get_by_username (register_name req) (store w) = None →
  create (register_name req) (register_email req) (register_pass req)
    (store w) = (Some user, st') →
  let resp := (register_submit prefix req w).1 in
  let s' := sess (register_submit prefix req w).2 in
  resp = RedirectResponse "/" 303 ∧
  s' !! "auth" = Some (VStr (username user)) ∧
  s' !! "user_id" = Some (VInt (uid user)) ∧
  s' !! "role" = Some (VStr (role user)) ∧
  (∀ k, k ≠ "auth" → k ≠ "user_id" → k ≠ "role" → s' !! k = sess w !! k).
Proof.
  intros Heq Hfree Hc.
  rewrite (register_submit_created prefix req w user st' Heq Hfree Hc).
  simpl. unfold logged_in_as. repeat split; try by simplify_map_eq.
  intros k Ha Hu Hr. by rewrite !lookup_insert_ne.
Qed.

(** C7: every answer of [login_submit], of [logout] and of
    [register_submit] is a redirect with status code 303, on every path
    through the handler. *)
Theorem auth_redirects_use_303 prefix req (w : World S) :
  is_see_other (login_submit prefix req w).1 ∧
  is_see_other (logout prefix w).1 ∧
  is_see_other (register_submit prefix req w).1.
Proof.
  unfold is_see_other. split; [|split].
  - destruct (authenticate (login_name req) (login_pass req) (store w))
      as [[user|] st'] eqn:E.
    + rewrite (login_submit_ok prefix req w user st' E). by eexists.
    + rewrite (login_submit_fail prefix req w st' E). by eexists.
  - by eexists.
  - destruct (decide (register_pass req = register_confirm req)) as [Heq|Hne].
    2: { rewrite (register_submit_mismatch prefix req w Hne). by eexists. }
    destruct (get_by_username (register_name req) (store w)) as [u|] eqn:Hu.
    { rewrite (register_submit_taken prefix req w u Heq Hu). by eexists. }
    destruct (create (register_name req) (register_email req)
                (register_pass req) (store w)) as [[user|] st'] eqn:Hc.
    + rewrite (register_submit_created prefix req w user st' Heq Hu Hc).
      by eexists.
    + rewrite (register_submit_not_created prefix req w st' Heq Hu Hc).
      by eexists.
Qed.

End RegisterProofs.

(** ** What survives [strip] *)

Lemma last_char_cons c s : ∃ b, last_char (String c s) = Some b.
Proof.
  revert c. induction s as [|a s IH]; intros c; [by exists c|].
  destruct (IH a) as [b Hb]. exists b. exact Hb.
Qed.

Lemma trimmed_spec s :
  trimmed s = true ↔
    (∀ c, first_char s = Some c → isspace c = false) ∧
    (∀ c, last_char s = Some c → isspace c = false).
Proof.
  destruct s as [|a t]; [by split|].
  destruct (last_char_cons a t) as [b Hb].
  unfold trimmed. rewrite Hb. cbn [first_char].
  rewrite andb_true_iff, !negb_true_iff. split.
  - intros [Ha Hlast]. split; intros c Hc; injection Hc as Hc; by subst c.
  - intros [Hf Hl]. split; [by apply Hf | by apply Hl].
Qed.

Lemma lstrip_id s :
  (∀ c, first_char s = Some c → isspace c = false) → lstrip s = s.
Proof.
  destruct s as [|a t]; [done|]. intros Hf. simpl.
  by rewrite (Hf a eq_refl).
Qed.

Lemma rstrip_id s :
  (∀ c, last_char s = Some c → isspace c = false) → rstrip s = s.
Proof.
  induction s as [|a s IH]; [done|]. intros Hl.
  destruct s as [|b t].
  - simpl. by rewrite (Hl a eq_refl).
  - change (rstrip (String a (String b t)))
      with (let r := rstrip (String b t) in
            if is_empty r && isspace a then EmptyString else String a r).
    rewrite IH; [done|]. intros c Hc. by apply Hl.
Qed.

(** A trimmed string is left as it is. *)
Lemma strip_trimmed_id s : trimmed s = true → strip s = s.
Proof.
  intros [Hf Hl]%trimmed_spec. unfold strip.
  rewrite (lstrip_id s Hf). by apply rstrip_id.
Qed.

(** The core of a padded name is exactly what [strip] returns. *)
Lemma strip_core l s r :
  all_space l = true → all_space r = true → trimmed s = true →
  strip (l +:+ s +:+ r) = s.
Proof.
  intros Hl Hr Hs. rewrite (strip_pad l s r Hl Hr).
  by apply strip_trimmed_id.
Qed.

Lemma strip_is_trimmed s : trimmed (strip s) = true.
Proof. apply trimmed_spec, strip_trimmed. Qed.

(** ** Whitespace in submitted names *)

Section StripProofs.
Context {S : Type} `{UserRepository S}.

Lemma login_submit_calls prefix req (w : World S) :
  calls (login_submit prefix req w).2 =
    calls w ++ [CallAuthenticate (strip (dict_get (form req) "username" ""))
                  (dict_get (form req) "password" "")].
Proof.
  run_monad.
  by destruct (authenticate _ _ (store w)) as [[user|] st'].
Qed.

Lemma register_submit_calls prefix req (w : World S) :
  register_pass req = register_confirm req →
  get_by_username (register_name req) (store w) = None →
  calls (register_submit prefix req w).2 =
    calls w ++
      [CallGetByUsername (strip (dict_get (form req) "username" ""));
       CallCreate (strip (dict_get (form req) "username" ""))
         (strip (dict_get (form req) "email" ""))
         (dict_get (form req) "password" "")].
Proof.
  intros Heq Hfree.
  destruct (create (register_name req) (register_email req)
              (register_pass req) (store w)) as [[user|] st'] eqn:Hc.
  - by rewrite (register_submit_created prefix req w user st' Heq Hfree Hc).
  - by rewrite (register_submit_not_created prefix req w st' Heq Hfree Hc).
Qed.

(** [login_submit] reads three fields of the form and nothing else of the
    request. *)
Lemma login_submit_ext prefix req1 req2 (w : World S) :
  strip (dict_get (form req1) "username" "")
    = strip (dict_get (form req2) "username" "") →
  dict_get (form req1) "password" "" = dict_get (form req2) "password" "" →
  dict_get (form req1) "next" "/" = dict_get (form req2) "next" "/" →
  login_submit prefix req1 w = login_submit prefix req2 w.
Proof. intros Hu Hp Hn. run_monad. by rewrite Hu, Hp, Hn. Qed.

Lemma register_submit_calls_any prefix req (w : World S) :
  register_pass req = register_confirm req →
  calls (register_submit prefix req w).2 =
    calls w ++ CallGetByUsername (register_name req) ::
      match get_by_username (register_name req) (store w) with
      | Some _ => []
      | None => [CallCreate (register_name req) (register_email req)
                   (register_pass req)]
      end.
Proof.
  intros Heq.
  destruct (get_by_username (register_name req) (store w)) as [u|] eqn:Hu.
  - by rewrite (register_submit_taken prefix req w u Heq Hu).
  - destruct (create (register_name req) (register_email req)
                (register_pass req) (store w)) as [[user|] st'] eqn:Hc.
    + by rewrite (register_submit_created prefix req w user st' Heq Hu Hc).
    + by rewrite (register_submit_not_created prefix req w st' Heq Hu Hc).
Qed.

(** C10: when the submitted username is a name with whitespace around it,
    the name itself having none at its ends, [login_submit] calls
    [authenticate] with exactly that name and with the password exactly as
    submitted, whatever characters the password has.  [register_submit]
    (passwords agreeing) looks up exactly the name and, when it is free,
    calls [create] with the name, the email without its surrounding
    whitespace and the password as submitted; when the name is taken the
    lookup is its only call.  Stripping splits every string into leading
    whitespace, the result and trailing whitespace, the result having
    whitespace at neither end, and ignores whitespace added around a
    string.  Hence two login forms that differ only in the whitespace
    around the username give the same answer and the same world. *)
Theorem submitted_names_are_stripped prefix (w : World S) :
  (∀ req l name r pw,
     all_space l = true → all_space r = true → trimmed name = true →
     form req !! "username" = Some (l +:+ name +:+ r) →
     form req !! "password" = Some pw →
     calls (login_submit prefix req w).2
       = calls w ++ [CallAuthenticate name pw]) ∧
  (∀ req l name r l' mail r' pw,
     all_space l = true → all_space r = true → trimmed name = true →
     all_space l' = true → all_space r' = true → trimmed mail = true →
     form req !! "username" = Some (l +:+ name +:+ r) →
     form req !! "email" = Some (l' +:+ mail +:+ r') →
     form req !! "password" = Some pw →
     form req !! "confirm_password" = Some pw →
     calls (register_submit prefix req w).2 =
       calls w ++ CallGetByUsername name ::
         match get_by_username name (store w) with
         | Some _ => []
         | None => [CallCreate name mail pw]
         end) ∧
  (∀ s, ∃ l r, all_space l = true ∧ all_space r = true ∧
               trimmed (strip s) = true ∧ s = l +:+ strip s +:+ r) ∧
  (∀ l s r, all_space l = true → all_space r = true →
     strip (l +:+ s +:+ r) = strip s) ∧
  (∀ s c, first_char (strip s) = Some c ∨ last_char (strip s) = Some c →
     isspace c = false) ∧
  (∀ req1 req2 rest l1 r1 l2 r2 name,
     all_space l1 = true → all_space r1 = true →
     all_space l2 = true → all_space r2 = true →
     form req1 = <["username" := l1 +:+ name +:+ r1]> rest →
     form req2 = <["username" := l2 +:+ name +:+ r2]> rest →
     login_submit prefix req1 w = login_submit prefix req2 w).
Proof.
  split; [|split; [|split; [|split; [|split]]]].
  - intros req l name r pw Hl Hr Hn Hu Hp.
    rewrite login_submit_calls. unfold dict_get. rewrite Hu, Hp. simpl.
    by rewrite (strip_core l name r Hl Hr Hn).
  - intros req l name r l' mail r' pw Hl Hr Hn Hl' Hr' Hm Hu He Hp Hc.
    assert (Hname : register_name req = name).
    { unfold register_name, dict_get. rewrite Hu. simpl.
      by apply strip_core. }
    assert (Hmail : register_email req = mail).
    { unfold register_email, dict_get. rewrite He. simpl.
      by apply strip_core. }
    assert (Hpass : register_pass req = pw)
      by (unfold register_pass, dict_get; by rewrite Hp).
    assert (Hconf : register_confirm req = pw)
      by (unfold register_confirm, dict_get; by rewrite Hc).
    rewrite register_submit_calls_any by congruence.
    by rewrite Hname, Hmail, Hpass.
  - intros s. destruct (strip_decompose s) as (l & r & Hl & Hr & Hs).
    exists l, r. repeat split; try done. apply strip_is_trimmed.
  - apply strip_pad.
  - intros s c [Hc|Hc]; destruct (strip_trimmed s) as [Hf Hl]; auto.
  - intros req1 req2 rest l1 r1 l2 r2 name Hl1 Hr1 Hl2 Hr2 F1 F2.
    apply login_submit_ext; rewrite F1, F2; unfold dict_get.
    + rewrite !lookup_insert_eq. simpl. by rewrite !strip_pad.
    + by rewrite !lookup_insert_ne.
    + by rewrite !lookup_insert_ne.
Qed.

End StripProofs.

(** ** The access gate and the profile page *)

Section GateProofs.
Context {S : Type} `{UserRepository S}.

(** C5: when the access gate classifies a request as [AUTHENTICATED], the
    user it resolved with its one [get_by_id] call is stored under the key
    [user] of the request scope and the request goes on with no aborting
    response; [profile_page] on that request builds the profile form for
    that same user and leaves the world, hence the log of repository calls,
    as the gate left it. *)
Theorem gate_attaches_resolved_user cfg prefix req req' resp (w w' : World S) :
  access_gate cfg req w = ((AUTHENTICATED, req', resp), w') →
  ∃ i u,
    sess w !! "user_id" = Some (VInt i) ∧
    get_by_id i (store w) = Some u ∧
    scope req' !! "user" = Some u ∧
    resp = None ∧
    calls w' = calls w ++ [CallGetById i] ∧
    profile_page prefix req' w' =
      (Some (Page "Profile"
               (create_profile_form u (query_params req !! "success")
                  (query_params req !! "error") (prefix +:+ "/profile"))),
       w').
Proof.
  unfold access_gate.
  destruct (is_public cfg (path req)); [by intros [=]|].
  unfold bind, ret, sess_get, call_get_by_id, sess_clear. simpl.
  destruct (sess w !! "user_id") as [[s|i]|] eqn:Hs; try by intros [=].
  destruct (get_by_id i (store w)) as [u|] eqn:Hu; [|by intros [=]].
  destruct (active u); [|by intros [=]].
  intros [= <- <- <-]. exists i, u.
  repeat split; try done.
  - simpl. apply lookup_insert_eq.
  - unfold profile_page. simpl. by rewrite lookup_insert_eq.
Qed.

End GateProofs.

(** ** Route registration *)

Section RegistrationProofs.
Context {S : Type} `{UserRepository S}.

Lemma truthy_get_or_false config k :
  truthy (cfg_get_or_false config k) = truthy (cfg_get config k).
Proof. unfold cfg_get_or_false, cfg_get. by destruct (config !! k). Qed.

Lemma added_app rs (app l : list Route) : added app (mkReg rs (app ++ l)) = l.
Proof. unfold added. simpl. apply drop_app_length. Qed.

(** The routes and the dict after [register_all] on a fresh [AuthRoutes]. *)
Lemma register_all_fresh config prefix app :
  register_all config prefix (AuthRoutes_init app) =
    let reg := truthy (cfg_get config "allow_registration") in
    let reset := truthy (cfg_get config "allow_password_reset") in
    let d0 : gmap string Handler :=
      <["logout" := h_logout]>
        (<["login_submit" := h_login_submit]>
           (<["login_page" := h_login_page]> ∅)) in
    let d1 :=
      if reg then <["register_submit" := h_register_submit]>
                    (<["register_page" := h_register_page]> d0)
      else d0 in
    let d2 := if reset then <["forgot_password" := h_forgot_page]> d1
              else d1 in
    let new :=
      [mkRoute (prefix +:+ "/login") (Some ["GET"]) h_login_page;
       mkRoute (prefix +:+ "/login") (Some ["POST"]) h_login_submit;
       mkRoute (prefix +:+ "/logout") None h_logout;
       mkRoute (prefix +:+ "/profile") (Some ["GET"]) h_profile_page]
      ++ (if reg
          then [mkRoute (prefix +:+ "/register") (Some ["GET"])
                  h_register_page;
                mkRoute (prefix +:+ "/register") (Some ["POST"])
                  h_register_submit]
          else [])
      ++ (if reset
          then [mkRoute (prefix +:+ "/forgot") (Some ["GET"]) h_forgot_page]
          else []) in
    (d2, mkReg d2 (app ++ new)).
Proof.
  unfold register_all, _register_login_routes, _register_logout_route,
    _register_profile_route, _register_registration_routes,
    _register_password_reset_routes, AuthRoutes_init, rt, set_route.
  rewrite !truthy_get_or_false. simpl.
  destruct (truthy (cfg_get config "allow_registration")),
    (truthy (cfg_get config "allow_password_reset"));
    simpl; by rewrite <- ?app_assoc.
Qed.

Lemma forgot_path_differs prefix (suffix : string) :
  suffix ≠ "/forgot" → prefix +:+ suffix ≠ prefix +:+ "/forgot".
Proof. intros Hne Heq. by apply Hne, (append_inv_head prefix). Qed.

(** C4: on a fresh [AuthRoutes], [register_all] adds the two registration
    routes (and their entries of [self.routes]) exactly when
    [allow_registration] is truthy, and the password-reset route (and its
    entry) exactly when [allow_password_reset] is truthy.  The only route it
    ever adds at [{prefix}/forgot], or with the forgot handler, is the GET
    route of [forgot_page], which only builds the form page and touches
    neither session nor repository. *)
Theorem register_all_gates_optional_routes config prefix app :
  let reg := truthy (cfg_get config "allow_registration") in
  let reset := truthy (cfg_get config "allow_password_reset") in
  let out := register_all config prefix (AuthRoutes_init app) in
  let new := added app out.2 in
  app_routes out.2 = app ++ new ∧
  (h_register_page ∈ handlers_of new ↔ reg = true) ∧
  (h_register_submit ∈ handlers_of new ↔ reg = true) ∧
  (is_Some (out.1 !! "register_page") ↔ reg = true) ∧
  (is_Some (out.1 !! "register_submit") ↔ reg = true) ∧
  (h_forgot_page ∈ handlers_of new ↔ reset = true) ∧
  (is_Some (out.1 !! "forgot_password") ↔ reset = true) ∧
  (∀ rte, rte ∈ new →
     route_path rte = prefix +:+ "/forgot" ∨ route_handler rte = h_forgot_page →
     rte = mkRoute (prefix +:+ "/forgot") (Some ["GET"]) h_forgot_page) ∧
  (∀ req (w : World S),
     run_handler h_forgot_page prefix req w =
       (Some (Page "Forgot Password"
                (create_forgot_password_form (query_params req !! "error")
                   (query_params req !! "success") (prefix +:+ "/forgot"))),
        w)).
Proof.
  intros reg reset out new. subst out new.
  rewrite register_all_fresh. cbv zeta. cbn [fst snd].
  rewrite added_app. cbn [app_routes]. subst reg reset.
  split; [done|].
  assert (Hmem : ∀ (h : Handler) (l : list Handler), h ∈ l ↔ In h l)
    by (intros; apply list_elem_of_In).
  destruct (truthy (cfg_get config "allow_registration")),
    (truthy (cfg_get config "allow_password_reset"));
    simpl; rewrite !Hmem; simpl;
    (repeat split; try (by intuition discriminate);
     try (by intros [x Hx]; simplify_map_eq);
     try (by intros _; eexists; simplify_map_eq)).
  all: intros rte Hin Hor;
    repeat (apply elem_of_cons in Hin as [->|Hin]); simpl in Hor;
    try (by apply elem_of_nil in Hin);
    try done;
    destruct Hor as [Hp|Hh]; try discriminate Hh;
    by (exfalso; revert Hp; apply forgot_path_differs).
Qed.

End RegistrationProofs.

(** ** Table initialisation *)

Section DatabaseProofs.
Variables User_model Session_model : Model.

Lemma db_create_name cls pk (d : gmap string Table) :
  (db_create cls pk d).1 = model_name cls.
Proof. unfold db_create. by destruct (d !! model_name cls). Qed.

Lemma db_create_exists cls pk (d : gmap string Table) :
  is_Some ((db_create cls pk d).2 !! model_name cls).
Proof.
  unfold db_create. destruct (d !! model_name cls) eqn:E; simpl.
  - by rewrite E.
  - rewrite lookup_insert_eq. by eexists.
Qed.

Lemma db_create_keeps cls pk (d : gmap string Table) n t :
  d !! n = Some t → (db_create cls pk d).2 !! n = Some t.
Proof.
  intros Hn. unfold db_create. destruct (d !! model_name cls) eqn:E; simpl.
  - done.
  - rewrite lookup_insert_ne; [done|]. intros <-. congruence.
Qed.

Lemma db_create_other cls pk (d : gmap string Table) n :
  n ≠ model_name cls → (db_create cls pk d).2 !! n = d !! n.
Proof.
  intros Hn. unfold db_create. destruct (d !! model_name cls); simpl.
  - done.
  - by rewrite lookup_insert_ne.
Qed.

Lemma db_create_present cls pk (d : gmap string Table) :
  is_Some (d !! model_name cls) → db_create cls pk d = (model_name cls, d).
Proof. intros [t Ht]. unfold db_create. by rewrite Ht. Qed.

Lemma db_create_absent cls pk (d : gmap string Table) :
  d !! model_name cls = None →
  (db_create cls pk d).2 !! model_name cls
    = Some (mkTable (model_fields cls) (default "id" pk) []).
Proof. intros Hn. unfold db_create. rewrite Hn. apply lookup_insert_eq. Qed.

Lemma initialize_auth_tables_eq self :
  initialize_auth_tables User_model Session_model self =
    let d2 :=
      (db_create Session_model None
         (db_create User_model (Some (model_pk User_model)) (db self)).2).2 in
    (mkAuthDatabase d2 (db_path self) (Some (model_name User_model))
       (Some (model_name Session_model)) (audit_log self), d2).
Proof.
  unfold initialize_auth_tables.
  pose proof (db_create_name User_model (Some (model_pk User_model))
                (db self)) as Hu.
  destruct (db_create User_model _ (db self)) as [un d1]. simpl in *.
  pose proof (db_create_name Session_model None d1) as Hs.
  destruct (db_create Session_model None d1) as [sn d2]. simpl in *.
  by subst.
Qed.

(** C6: [initialize_auth_tables] returns the database the object holds,
    in which both the user table and the session table exist; every table
    that was there before is still there with its content, every other name
    is untouched, and a table that was absent is created empty from its
    model.  Running it again on the result changes nothing and returns the
    same database. *)
Theorem initialize_auth_tables_idempotent self :
  let init := initialize_auth_tables User_model Session_model in
  let self1 := (init self).1 in
  let handle := (init self).2 in
  handle = db self1 ∧
  is_Some (handle !! model_name User_model) ∧
  is_Some (handle !! model_name Session_model) ∧
  users self1 = Some (model_name User_model) ∧
  sessions self1 = Some (model_name Session_model) ∧
  (∀ n t, db self !! n = Some t → handle !! n = Some t) ∧
  (∀ n, n ≠ model_name User_model → n ≠ model_name Session_model →
        handle !! n = db self !! n) ∧
  (db self !! model_name User_model = None →
   handle !! model_name User_model
     = Some (mkTable (model_fields User_model) (model_pk User_model) [])) ∧
  init self1 = (self1, handle).
Proof.
  intros init self1 handle. subst init self1 handle.
  rewrite initialize_auth_tables_eq. cbv zeta. cbn [fst snd].
  set (d1 := (db_create User_model (Some (model_pk User_model)) (db self)).2).
  set (d2 := (db_create Session_model None d1).2).
  assert (Hu1 : is_Some (d1 !! model_name User_model))
    by apply db_create_exists.
  assert (Hu2 : is_Some (d2 !! model_name User_model)).
  { destruct Hu1 as [t Ht]. exists t. by apply db_create_keeps. }
  assert (Hs2 : is_Some (d2 !! model_name Session_model))
    by apply db_create_exists.
  repeat split; try done.
  - intros n t Hn. by apply db_create_keeps, db_create_keeps.
  - intros n Hnu Hns. subst d2 d1. by rewrite !db_create_other.
  - intros Habs. apply db_create_keeps.
    by apply (db_create_absent User_model (Some (model_pk User_model))).
  - rewrite initialize_auth_tables_eq. cbv zeta. cbn [db db_path audit_log].
    rewrite (db_create_present User_model _ d2 Hu2). cbn [snd].
    by rewrite (db_create_present Session_model _ d2 Hs2).
Qed.

End DatabaseProofs.

(** ** The statements at concrete inputs *)

Section Examples.
Import Fixture.

(** C1 as written fails: alice exists, the two passwords differ, and the
    answer is the password-mismatch redirect, not the username-taken one. *)
Lemma register_taken_mismatch_not_username_taken :
  get_by_username (register_name register_taken_mismatch) (store world0)
    = Some alice ∧
  (register_submit "/auth" register_taken_mismatch world0).1
    = RedirectResponse "/auth/register?error=password_mismatch" 303 ∧
  (register_submit "/auth" register_taken_mismatch world0).1
    ≠ RedirectResponse "/auth/register?error=username_taken" 303.
Proof. repeat split; [vm_compute; reflexivity .. | vm_compute; discriminate]. Qed.

(** alice's name submitted again with matching passwords: turned away as
    taken, store untouched. *)
Lemma register_existing_username_rejected_witness :
  get_by_username (register_name register_taken) (store world0) = Some alice ∧
  (register_submit "/auth" register_taken world0).1
    = RedirectResponse "/auth/register?error=username_taken" 303 ∧
  store (register_submit "/auth" register_taken world0).2 = store0.
Proof.
  assert (Hu : get_by_username (register_name register_taken) (store world0)
               = Some alice) by (vm_compute; reflexivity).
  destruct (register_existing_username_rejected "/auth" register_taken
              world0 alice Hu) as (Hr & Hs & _).
  split; [exact Hu|]. split; [exact Hr | exact Hs].
Defined.

(** A wrong password for alice and an unknown user: the same answer. *)
Lemma login_failure_is_generic_witness :
  (login_submit "/auth" login_bad world0).1
    = RedirectResponse "/auth/login?error=invalid" 303 ∧
  sess (login_submit "/auth" login_bad world0).2 = sess world0 ∧
  (login_submit "/auth" login_unknown world0).1
    = (login_submit "/auth" login_bad world0).1.
Proof.
  apply (login_failure_is_generic "/auth" login_bad world0 store0
           login_unknown world0 store0); vm_compute; reflexivity.
Defined.

(** alice logs in with spaces around her name and is sent to [/reports]. *)
Lemma login_success_sets_session_witness :
  sess (login_submit "/auth" login_ok world0).2 !! "auth"
    = Some (VStr "alice") ∧
  (login_submit "/auth" login_ok world0).1 = RedirectResponse "/reports" 303.
Proof.
  assert (Ha : authenticate (login_name login_ok) (login_pass login_ok)
                 (store world0)
               = (Some (touch_login (now store0) alice),
                  mkStore [touch_login (now store0) alice] 2 (now store0)))
    by (vm_compute; reflexivity).
  destruct (login_success_sets_session "/auth" login_ok world0 _ _ Ha)
    as (Hauth & _ & _ & _ & Hnext & _).
  split; [exact Hauth|]. apply Hnext. vm_compute. reflexivity.
Defined.

(** bob registers and is logged in with the id the store assigned. *)
Lemma register_success_logs_in_witness :
  (register_submit "/auth" register_new world0).1 = RedirectResponse "/" 303 ∧
  sess (register_submit "/auth" register_new world0).2 !! "auth"
    = Some (VStr "bob") ∧
  sess (register_submit "/auth" register_new world0).2 !! "user_id"
    = Some (VInt 2).
Proof.
  set (bob := mkUser 2 "bob" "bob@example.com" "$2b$hunter22" "user" true
                (now store0) (now store0)).
  assert (Hc : create (register_name register_new)
                 (register_email register_new) (register_pass register_new)
                 (store world0)
               = (Some bob, mkStore [alice; bob] 3 (now store0)))
    by (vm_compute; reflexivity).
  destruct (register_success_logs_in "/auth" register_new world0 bob _
              ltac:(vm_compute; reflexivity) ltac:(vm_compute; reflexivity) Hc)
    as (Hr & Ha & Hi & _).
  split; [exact Hr|]. split; [exact Ha | exact Hi].
Defined.

(** alice's session on the profile path: the gate resolves her once and the
    profile page shows her. *)
Lemma gate_attaches_resolved_user_witness :
  ∃ i u,
    sess logged_in !! "user_id" = Some (VInt i) ∧
    get_by_id i (store logged_in) = Some u ∧
    scope (attach_user profile_request alice) !! "user" = Some u ∧
    (None : option Response) = None ∧
    calls (mkWorld (sess logged_in) store0 [CallGetById 1])
      = calls logged_in ++ [CallGetById i] ∧
    profile_page "/auth" (attach_user profile_request alice)
      (mkWorld (sess logged_in) store0 [CallGetById 1]) =
      (Some (Page "Profile"
               (create_profile_form u (query_params profile_request !! "success")
                  (query_params profile_request !! "error")
                  ("/auth" +:+ "/profile"))),
       mkWorld (sess logged_in) store0 [CallGetById 1]).
Proof.
  apply (gate_attaches_resolved_user gate_cfg "/auth" profile_request
           (attach_user profile_request alice) None logged_in
           (mkWorld (sess logged_in) store0 [CallGetById 1])).
  vm_compute. reflexivity.
Defined.

(** The password is not stripped: behind one space the right password no
    longer logs alice in, while spaces around the username change nothing. *)
Example login_password_is_verbatim :
  (login_submit "/auth" login_padded_password world0).1
    = RedirectResponse "/auth/login?error=invalid" 303 ∧
  (login_submit "/auth" login_plain world0).1
    = RedirectResponse "/reports" 303 ∧
  login_submit "/auth" login_ok world0 = login_submit "/auth" login_plain world0.
Proof. repeat split; vm_compute; reflexivity. Qed.

End Examples.

(** * Further properties of the route handlers *)

Lemma logged_in_as_overwrites (u1 u2 : User) (s : gmap string value) :
  logged_in_as u2 (logged_in_as u1 s) = logged_in_as u2 s.
Proof.
  apply map_eq. intros k. unfold logged_in_as.
  rewrite !lookup_insert. by repeat case_decide.
Qed.

Lemma logged_in_as_dom (u : User) (s : gmap string value) :
  dom (logged_in_as u s) = {["auth"; "user_id"; "role"]} ∪ dom s.
Proof. unfold logged_in_as. rewrite !dom_insert_L. set_solver. Qed.

Section SessionFlow.
Context {S : Type} `{UserRepository S}.

(** X1: A second successful login on the same session replaces the identity of
    the first: the session is what a single login of the second user would
    have left, with no trace of the first user. *)
Theorem relogin_replaces_identity prefix req1 req2 (w : World S)
    u1 st1 u2 st2 :
  authenticate (login_name req1) (login_pass req1) (store w)
    = (Some u1, st1) →
  authenticate (login_name req2) (login_pass req2) st1 = (Some u2, st2) →
  let w1 := (login_submit prefix req1 w).2 in
  let w2 := (login_submit prefix req2 w1).2 in
  sess w2 = logged_in_as u2 (sess w) ∧
  sess w2 !! "auth" = Some (VStr (username u2)) ∧
  sess w2 !! "user_id" = Some (VInt (uid u2)) ∧
  sess w2 !! "role" = Some (VStr (role u2)).
Proof.
  intros Hfirst Hsecond. cbv zeta.
  rewrite (login_submit_ok prefix req1 w u1 st1 Hfirst). cbn [snd].
  rewrite (login_submit_ok prefix req2
             (mkWorld (logged_in_as u1 (sess w)) st1
                (calls w
                 ++ [CallAuthenticate (login_name req1) (login_pass req1)]))
             u2 st2 Hsecond).
  cbn [snd sess]. rewrite logged_in_as_overwrites.
  unfold logged_in_as. repeat split; by simplify_map_eq.
Qed.

(** X2: Logging out and then logging in leaves a session with exactly the three
    keys of the new login, whatever the session held before. *)
Theorem logout_then_login_session prefix req (w : World S) user st' :
  authenticate (login_name req) (login_pass req) (store w)
    = (Some user, st') →
  let w' := ((logout prefix ;; login_submit prefix req) w).2 in
  sess w' = logged_in_as user ∅ ∧
  dom (sess w') = {["auth"; "user_id"; "role"]}.
Proof.
  intros Hauth. cbv zeta.
  change ((logout prefix ;; login_submit prefix req) w)
    with (login_submit prefix req (mkWorld ∅ (store w) (calls w))).
  rewrite (login_submit_ok prefix req (mkWorld ∅ (store w) (calls w))
             user st' Hauth).
  cbn [snd sess]. split; [done|].
  rewrite logged_in_as_dom. set_solver.
Qed.

(** X3: The session a successful registration leaves is the session a
    successful login of a user with the same username, id and role leaves:
    the two handlers write the same three keys. *)
Theorem register_and_login_agree prefix req_r req_l (w1 w2 : World S)
    created st1 found st2 :
  register_pass req_r = register_confirm req_r →
  get_by_username (register_name req_r) (store w1) = None →
  create (register_name req_r) (register_email req_r) (register_pass req_r)
    (store w1) = (Some created, st1) →
  authenticate (login_name req_l) (login_pass req_l) (store w2)
    = (Some found, st2) →
  username found = username created → uid found = uid created →
  role found = role created → sess w2 = sess w1 →
  sess (login_submit prefix req_l w2).2
    = sess (register_submit prefix req_r w1).2.
Proof.
  intros Heq Hfree Hc Hauth Hn Hi Hr Hs.
  rewrite (register_submit_created prefix req_r w1 created st1 Heq Hfree Hc).
  rewrite (login_submit_ok prefix req_l w2 found st2 Hauth).
  cbn [snd sess]. unfold logged_in_as. by rewrite Hn, Hi, Hr, Hs.
Qed.

(** X4: A login form without a [username] field, or with one made of whitespace
    only, asks the repository about the empty username; a form without a
    [password] field sends the empty password. *)
Theorem login_blank_fields_default_empty prefix req (w : World S) :
  (form req !! "username" = None ∨
   ∃ ws, form req !! "username" = Some ws ∧ all_space ws = true) →
  ∃ p, calls (login_submit prefix req w).2
         = calls w ++ [CallAuthenticate "" p] ∧
       (form req !! "password" = None → p = "") ∧
       (∀ v, form req !! "password" = Some v → p = v).
Proof.
  intros Hname. exists (dict_get (form req) "password" "").
  rewrite login_submit_calls. unfold dict_get. split; [|split].
  - destruct Hname as [-> | (ws & -> & Hws)]; simpl; [done|].
    unfold strip. by rewrite (lstrip_all_space ws Hws).
  - by intros ->.
  - by intros v ->.
Qed.

End SessionFlow.

Section RegistrationFlow.
Context {S : Type} `{UserRepository S}.

(** X5: Provided the repository calls return (a storage fault that raises
    is outside this model), [register_submit] changes the session only when
    [create] returned a user, and then to the three keys of that very user
    with the see-other redirect to [/]; on each of the three failure paths
    (passwords differ, name taken, [create] returned nothing) the session is
    exactly as it was and the see-other redirect goes back to the register
    page with the error code of that path. *)
Theorem register_outcomes prefix req (w : World S) :
  let resp := (register_submit prefix req w).1 in
  let w' := (register_submit prefix req w).2 in
  let made := create (register_name req) (register_email req)
                (register_pass req) (store w) in
  let back (err : string) :=
    RedirectResponse (prefix +:+ ("/register?error=" +:+ err)) 303 in
  (register_pass req ≠ register_confirm req →
   resp = back "password_mismatch" ∧ sess w' = sess w) ∧
  (register_pass req = register_confirm req →
   is_Some (get_by_username (register_name req) (store w)) →
   resp = back "username_taken" ∧ sess w' = sess w) ∧
  (register_pass req = register_confirm req →
   get_by_username (register_name req) (store w) = None →
   made.1 = None →
   resp = back "creation_failed" ∧ sess w' = sess w) ∧
  (register_pass req = register_confirm req →
   get_by_username (register_name req) (store w) = None →
   ∀ user, made.1 = Some user →
   resp = RedirectResponse "/" 303 ∧ sess w' = logged_in_as user (sess w)) ∧
  (sess w' ≠ sess w →
   ∃ user, made.1 = Some user ∧ resp = RedirectResponse "/" 303 ∧
           sess w' = logged_in_as user (sess w)).
Proof.
  cbv zeta.
  assert (Hmis : register_pass req ≠ register_confirm req →
                 register_submit prefix req w =
                   (RedirectResponse
                      (prefix +:+ "/register?error=password_mismatch") 303, w))
    by apply register_submit_mismatch.
  assert (Htaken : register_pass req = register_confirm req →
                   is_Some (get_by_username (register_name req) (store w)) →
                   (register_submit prefix req w).1 =
                     RedirectResponse
                       (prefix +:+ "/register?error=username_taken") 303 ∧
                   sess (register_submit prefix req w).2 = sess w).
  { intros Heq [u Hu].
    by rewrite (register_submit_taken prefix req w u Heq Hu). }
  assert (Hfail : register_pass req = register_confirm req →
                  get_by_username (register_name req) (store w) = None →
                  (create (register_name req) (register_email req)
                     (register_pass req) (store w)).1 = None →
                  (register_submit prefix req w).1 =
                    RedirectResponse
                      (prefix +:+ "/register?error=creation_failed") 303 ∧
                  sess (register_submit prefix req w).2 = sess w).
  { intros Heq Hfree Hc.
    destruct (create _ _ _ (store w)) as [o st'] eqn:E. simpl in Hc. subst o.
    by rewrite (register_submit_not_created prefix req w st' Heq Hfree E). }
  assert (Hok : register_pass req = register_confirm req →
                get_by_username (register_name req) (store w) = None →
                ∀ user,
                  (create (register_name req) (register_email req)
                     (register_pass req) (store w)).1 = Some user →
                  (register_submit prefix req w).1 = RedirectResponse "/" 303 ∧
                  sess (register_submit prefix req w).2
                    = logged_in_as user (sess w)).
  { intros Heq Hfree user Hc.
    destruct (create _ _ _ (store w)) as [o st'] eqn:E. simpl in Hc. subst o.
    by rewrite (register_submit_created prefix req w user st' Heq Hfree E). }
  split; [|split; [|split; [|split]]].
  - intros Hne. by rewrite (Hmis Hne).
  - exact Htaken.
  - exact Hfail.
  - exact Hok.
  - intros Hchanged.
    destruct (decide (register_pass req = register_confirm req)) as [Heq|Hne].
    2: { exfalso. apply Hchanged. by rewrite (Hmis Hne). }
    destruct (get_by_username (register_name req) (store w)) as [u|] eqn:Hu.
    { exfalso. apply Hchanged. by apply Htaken. }
    destruct (create (register_name req) (register_email req)
                (register_pass req) (store w)).1 as [user|] eqn:Hc.
    + exists user. split; [done|]. by apply Hok.
    + exfalso. apply Hchanged. by apply Hfail.
Qed.

(** X6: [register_submit] makes at most two repository calls, in a fixed order:
    none when the passwords differ, else a lookup of the stripped username,
    followed by [create] only when that lookup found nobody.  The store is
    touched by [create] alone. *)
Theorem register_call_discipline prefix req (w : World S) :
  let w' := (register_submit prefix req w).2 in
  let look := CallGetByUsername (register_name req) in
  let make := CallCreate (register_name req) (register_email req)
                (register_pass req) in
  (register_pass req ≠ register_confirm req ∧
   calls w' = calls w ∧ store w' = store w) ∨
  (register_pass req = register_confirm req ∧
   is_Some (get_by_username (register_name req) (store w)) ∧
   calls w' = calls w ++ [look] ∧ store w' = store w) ∨
  (register_pass req = register_confirm req ∧
   get_by_username (register_name req) (store w) = None ∧
   calls w' = calls w ++ [look; make] ∧
   store w' = (create (register_name req) (register_email req)
                 (register_pass req) (store w)).2).
Proof.
  cbv zeta.
  destruct (decide (register_pass req = register_confirm req)) as [Heq|Hne].
  2: { left. by rewrite (register_submit_mismatch prefix req w Hne). }
  right.
  destruct (get_by_username (register_name req) (store w)) as [u|] eqn:Hu.
  { left. rewrite (register_submit_taken prefix req w u Heq Hu).
    by repeat split. }
  right.
  destruct (create (register_name req) (register_email req)
              (register_pass req) (store w)) as [[user|] st'] eqn:Hc.
  - by rewrite (register_submit_created prefix req w user st' Heq Hu Hc).
  - by rewrite (register_submit_not_created prefix req w st' Heq Hu Hc).
Qed.

(** X7: The handler validates nothing but the equality of the two passwords: a
    form with none of the four fields passes that check (both default to
    the empty string) and, when no user has the empty name, [create] is
    called with an empty username, email and password. *)
Theorem register_empty_form_reaches_create prefix req (w : World S) :
  form req !! "username" = None → form req !! "email" = None →
  form req !! "password" = None → form req !! "confirm_password" = None →
  get_by_username "" (store w) = None →
  calls (register_submit prefix req w).2
    = calls w ++ [CallGetByUsername ""; CallCreate "" "" ""].
Proof.
  intros Hu He Hp Hc Hfree.
  rewrite register_submit_calls.
  - unfold dict_get. by rewrite Hu, He, Hp.
  - unfold register_pass, register_confirm, dict_get. by rewrite Hp, Hc.
  - unfold register_name, dict_get. by rewrite Hu.
Qed.

(** X8: Whitespace around a name does not get past the taken check, for a
    name that has no whitespace at its own ends: when the submitted username
    is such an existing user's name with any whitespace added on either side
    (and the passwords agree), the answer is the username-taken redirect,
    the lookup of that name is the only repository call and nothing is
    created. *)
Theorem register_padded_name_is_taken prefix req (w : World S) u name l r :
  all_space l = true → all_space r = true → trimmed name = true →
  form req !! "username" = Some (l +:+ name +:+ r) →
  get_by_username name (store w) = Some u →
  register_pass req = register_confirm req →
  register_submit prefix req w =
    (RedirectResponse (prefix +:+ "/register?error=username_taken") 303,
     mkWorld (sess w) (store w) (calls w ++ [CallGetByUsername name])).
Proof.
  intros Hl Hr Ht Hform Hu Heq.
  assert (Hn : register_name req = name).
  { unfold register_name, dict_get. rewrite Hform. simpl.
    by apply strip_core. }
  rewrite <- Hn in Hu |- *.
  by apply (register_submit_taken prefix req w u).
Qed.

End RegistrationFlow.

(** ** The GET pages *)

Section Pages.
Context {S : Type} `{UserRepository S}.

(** The form pages are read-only: [login_page], [register_page] and
    [forgot_page] return a page for every request and leave the session, the
    store and the call log as they were; the [error] (and [success]) query
    parameter reaches the form unchanged, absent when the query has none. *)
Theorem form_pages_are_read_only prefix req (w : World S) :
  login_page prefix req w =
    (Page "Login"
       (Container (create_login_form (query_params req !! "error")
                     (prefix +:+ "/login"))), w) ∧
  register_page prefix req w =
    (Page "Register"
       (Container (create_register_form (query_params req !! "error")
                     (prefix +:+ "/register"))), w) ∧
  forgot_page prefix req w =
    (Page "Forgot Password"
       (create_forgot_password_form (query_params req !! "error")
          (query_params req !! "success") (prefix +:+ "/forgot")), w).
Proof. done. Qed.

(** X9: [profile_page] fails (the [KeyError] of [req.scope['user']]) exactly
    when the scope has no [user] entry; otherwise it builds the profile form
    of the user found there.  Either way the world is left as it was. *)
Theorem profile_page_needs_scope_user prefix req (w : World S) :
  ((profile_page prefix req w).1 = None ↔ scope req !! "user" = None) ∧
  (∀ u, scope req !! "user" = Some u →
        (profile_page prefix req w).1 =
          Some (Page "Profile"
                  (create_profile_form u (query_params req !! "success")
                     (query_params req !! "error")
                     (prefix +:+ "/profile")))) ∧
  (profile_page prefix req w).2 = w.
Proof.
  unfold profile_page. destruct (scope req !! "user") as [u|]; simpl.
  - repeat split; try done. by intros u' [= <-].
  - by repeat split.
Qed.

End Pages.

(** * Further properties of route registration *)

Section RegistrationMore.
Context {S : Type} `{UserRepository S}.

(** [register_all] on any object: the routes it appends and the entries it
    assigns, whatever was registered before. *)
Lemma register_all_any config prefix (r : Reg) :
  register_all config prefix r =
    let reg := truthy (cfg_get config "allow_registration") in
    let reset := truthy (cfg_get config "allow_password_reset") in
    let d0 : gmap string Handler :=
      <["logout" := h_logout]>
        (<["login_submit" := h_login_submit]>
           (<["login_page" := h_login_page]> (routes r))) in
    let d1 :=
      if reg then <["register_submit" := h_register_submit]>
                    (<["register_page" := h_register_page]> d0)
      else d0 in
    let d2 := if reset then <["forgot_password" := h_forgot_page]> d1
              else d1 in
    let new :=
      [mkRoute (prefix +:+ "/login") (Some ["GET"]) h_login_page;
       mkRoute (prefix +:+ "/login") (Some ["POST"]) h_login_submit;
       mkRoute (prefix +:+ "/logout") None h_logout;
       mkRoute (prefix +:+ "/profile") (Some ["GET"]) h_profile_page]
      ++ (if reg
          then [mkRoute (prefix +:+ "/register") (Some ["GET"])
                  h_register_page;
                mkRoute (prefix +:+ "/register") (Some ["POST"])
                  h_register_submit]
          else [])
      ++ (if reset
          then [mkRoute (prefix +:+ "/forgot") (Some ["GET"]) h_forgot_page]
          else []) in
    (d2, mkReg d2 (app_routes r ++ new)).
Proof.
  unfold register_all, _register_login_routes, _register_logout_route,
    _register_profile_route, _register_registration_routes,
    _register_password_reset_routes, rt, set_route.
  rewrite !truthy_get_or_false. simpl.
  destruct (truthy (cfg_get config "allow_registration")),
    (truthy (cfg_get config "allow_password_reset"));
    simpl; by rewrite <- ?app_assoc.
Qed.

Lemma added_any (r : Reg) rs (l : list Route) :
  added (app_routes r) (mkReg rs (app_routes r ++ l)) = l.
Proof. apply added_app. Qed.

(** X11: The dict [register_all] returns lists every handler it registered on the
    app except [profile_page]: the profile route is added to the app but
    never entered in [self.routes], so the dict is one entry short of the
    routes added. *)
Theorem register_all_omits_profile config prefix app :
  let out := register_all config prefix (AuthRoutes_init app) in
  let new := added app out.2 in
  h_profile_page ∈ handlers_of new ∧
  (∀ h, (∃ k, out.1 !! k = Some h) ↔
        h ∈ handlers_of new ∧ h ≠ h_profile_page) ∧
  length new = (size out.1 + 1)%nat.
Proof.
  cbv zeta. rewrite register_all_fresh. cbv zeta. cbn [fst snd].
  rewrite added_app.
  destruct (truthy (cfg_get config "allow_registration")),
    (truthy (cfg_get config "allow_password_reset")).
  all: unfold handlers_of; simpl; rewrite list_elem_of_In; simpl.
  all: split; [tauto|]; split; [|by vm_compute].
  all: intros h; rewrite list_elem_of_In; simpl; split.
  all: try (intros [k Hk]; rewrite !lookup_insert, ?lookup_empty in Hk;
            repeat case_decide; try discriminate Hk;
            (injection Hk as Hh); subst h;
            (split; [repeat (first [left; reflexivity | right])
                    | discriminate])).
  all: intros [Hin Hne].
  all: repeat (destruct Hin as [Hx|Hin]; [subst h|]); try done.
  all: first [ by (exists "login_page"; vm_compute)
             | by (exists "login_submit"; vm_compute)
             | by (exists "logout"; vm_compute)
             | by (exists "register_page"; vm_compute)
             | by (exists "register_submit"; vm_compute)
             | by (exists "forgot_password"; vm_compute) ].
Qed.

Lemma prefix_append p s : String.prefix p (p +:+ s) = true.
Proof.
  induction p as [|c p IH].
  - rewrite append_nil_l. by destruct s.
  - rewrite append_cons. simpl. by destruct (ascii_dec c c).
Qed.

(** X12: Calling [register_all] a second time on the same object with the
    same configuration leaves the dict [self.routes], and the dict returned,
    exactly as the first call left them. *)
Theorem register_all_twice config prefix (r : Reg) :
  let out1 := register_all config prefix r in
  let out2 := register_all config prefix out1.2 in
  out2.1 = out1.1 ∧
  routes out2.2 = routes out1.2.
Proof.
  cbv zeta. rewrite (register_all_any config prefix r). cbv zeta.
  cbn [fst snd].
  rewrite register_all_any. cbv zeta. cbn [fst snd routes app_routes].
  destruct (truthy (cfg_get config "allow_registration")),
    (truthy (cfg_get config "allow_password_reset")).
  all: repeat split; try done.
  all: apply map_eq; intros k; rewrite !lookup_insert;
    by repeat case_decide.
Qed.

(** X13: [register_all] never drops an entry of the dict [self.routes]:
    every name present before is present after, an entry under a name other
    than the six handler names keeps its value, and the dict returned is the
    dict the object holds. *)
Theorem register_all_only_adds config prefix (r : Reg) :
  let out := register_all config prefix r in
  out.1 = routes out.2 ∧
  (∀ k, is_Some (routes r !! k) → is_Some (out.1 !! k)) ∧
  (∀ k, k ∉ ["login_page"; "login_submit"; "logout"; "register_page";
             "register_submit"; "forgot_password"] →
        out.1 !! k = routes r !! k).
Proof.
  cbv zeta. rewrite register_all_any. cbv zeta. cbn [fst snd routes].
  split; [done|].
  destruct (truthy (cfg_get config "allow_registration")),
    (truthy (cfg_get config "allow_password_reset")).
  all: split;
    [ intros k Hk; rewrite !lookup_insert; by repeat case_decide
    | intros k Hk; rewrite !lookup_insert;
      repeat case_decide; try done; subst k; exfalso; apply Hk;
      rewrite list_elem_of_In; simpl; tauto ].
Qed.

(** X14: Every route [register_all] adds lives under the prefix; the
    path-and-methods pairs of the added routes are pairwise different, so no
    registration shadows another; and [logout] is the one route registered
    without a [methods] list. *)
Theorem added_routes_shape config prefix app :
  let new := added app (register_all config prefix (AuthRoutes_init app)).2 in
  (∀ rte, rte ∈ new → String.prefix prefix (route_path rte) = true) ∧
  NoDup (route_key <$> new) ∧
  (∀ rte, rte ∈ new →
     (route_methods rte = None ↔ route_handler rte = h_logout)).
Proof.
  cbv zeta. rewrite register_all_fresh. cbv zeta. cbn [snd].
  rewrite added_app.
  destruct (truthy (cfg_get config "allow_registration")),
    (truthy (cfg_get config "allow_password_reset")); simpl.
  all: split; [|split].
  all: try (intros rte Hin;
            repeat (apply elem_of_cons in Hin as [Hx|Hin]; [subst rte|]);
            [ .. | by apply elem_of_nil in Hin]; simpl;
            first [ apply prefix_append
                  | by split
                  | (split; intros Hx; discriminate Hx) ]).
  all: repeat (apply NoDup_cons; split); try apply NoDup_nil_2.
  all: intros Hin;
    repeat (apply elem_of_cons in Hin as [Hx|Hin];
            [ try discriminate Hx;
              assert (Hp := f_equal fst Hx); simpl in Hp;
              apply append_inv_head in Hp; discriminate Hp |]);
    by apply elem_of_nil in Hin.
Qed.

End RegistrationMore.

Section FormsAndRoutes.
Context {S : Type} `{UserRepository S}.

(** X10: The login form and the register form post to a path at which
    [register_all] registers the matching submit handler for POST (the
    register form whenever registration is enabled).  The forgot-password
    form and the profile form post to paths at which no added route lists
    POST: nothing handles their submission. *)
Theorem form_actions_and_post_routes config prefix app req (w : World S) :
  let new := added app (register_all config prefix (AuthRoutes_init app)).2 in
  let posts (p : string) (h : Handler) :=
    ∃ rte, rte ∈ new ∧ route_path rte = p ∧ route_handler rte = h ∧
           lists_method "POST" rte in
  (∃ p, page_action (login_page prefix req w).1 = Some p ∧
        posts p h_login_submit) ∧
  (truthy (cfg_get config "allow_registration") = true →
   ∃ p, page_action (register_page prefix req w).1 = Some p ∧
        posts p h_register_submit) ∧
  (∃ p, page_action (forgot_page prefix req w).1 = Some p ∧
        ∀ h, ¬ posts p h) ∧
  (∀ u, scope req !! "user" = Some u →
        ∃ p, page_action <$> (profile_page prefix req w).1 = Some (Some p) ∧
             ∀ h, ¬ posts p h).
Proof.
  cbv zeta. rewrite register_all_fresh. cbv zeta. cbn [snd].
  rewrite added_app.
  assert (Hpost : lists_method "POST"
                    (mkRoute (prefix +:+ "/login") (Some ["POST"])
                       h_login_submit))
    by (exists ["POST"]; split; [done | apply list_elem_of_here]).
  assert (Hnone : ∀ (l : list Route) p h,
            (∀ rte, rte ∈ l → route_path rte = p →
                    route_methods rte = Some ["GET"]) →
            ¬ ∃ rte, rte ∈ l ∧ route_path rte = p ∧ route_handler rte = h ∧
                     lists_method "POST" rte).
  { intros l p h Hl (rte & Hin & Hp & _ & ms & Hms & Hm).
    rewrite (Hl rte Hin Hp) in Hms. injection Hms as <-.
    apply elem_of_cons in Hm as [Hm|Hm]; [discriminate Hm|].
    by apply elem_of_nil in Hm. }
  split; [|split; [|split]].
  - exists (prefix +:+ "/login"). split; [done|].
    exists (mkRoute (prefix +:+ "/login") (Some ["POST"]) h_login_submit).
    split; [rewrite list_elem_of_In; simpl; tauto|]. by repeat split.
  - intros ->. exists (prefix +:+ "/register"). split; [done|].
    exists (mkRoute (prefix +:+ "/register") (Some ["POST"]) h_register_submit).
    split; [rewrite list_elem_of_In; simpl; tauto|].
    repeat split. exists ["POST"]. split; [done | apply list_elem_of_here].
  - exists (prefix +:+ "/forgot"). split; [done|]. intros h.
    apply Hnone. intros rte Hin Hp.
    destruct (truthy (cfg_get config "allow_registration")),
      (truthy (cfg_get config "allow_password_reset")); simpl in Hin.
    all: repeat (apply elem_of_cons in Hin as [Hx|Hin]; [subst rte|]);
      try (by apply elem_of_nil in Hin); try done.
    all: simpl in Hp; apply append_inv_head in Hp; discriminate Hp.
  - intros u Hu. exists (prefix +:+ "/profile").
    split; [unfold profile_page; by rewrite Hu|]. intros h.
    apply Hnone. intros rte Hin Hp.
    destruct (truthy (cfg_get config "allow_registration")),
      (truthy (cfg_get config "allow_password_reset")); simpl in Hin.
    all: repeat (apply elem_of_cons in Hin as [Hx|Hin]; [subst rte|]);
      try (by apply elem_of_nil in Hin); try done.
    all: simpl in Hp; apply append_inv_head in Hp; discriminate Hp.
Qed.

End FormsAndRoutes.

(** ** The home page of [test_auth.py] *)

Lemma home_hrefs req :
  hrefs (home req).2 =
    match scope req !! "user" with
    | Some _ => ["/auth/profile"; "/auth/logout"]
    | None => ["/auth/login"]
    end.
Proof. unfold home. by destruct (scope req !! "user"). Qed.

(** X15: Every link on the home page, for a logged-in visitor and for an
    anonymous one, targets a path that [register_all] registers under the
    default prefix whatever the configuration, with GET among its methods or
    with no method restriction. *)
Theorem home_links_are_registered config app req href :
  href ∈ hrefs (home req).2 →
  ∃ rte,
    rte ∈ added app
            (register_all config default_prefix (AuthRoutes_init app)).2 ∧
    route_path rte = href ∧
    (route_methods rte = None ∨ lists_method "GET" rte).
Proof.
  rewrite home_hrefs, register_all_fresh. cbv zeta. cbn [snd].
  rewrite added_app. intros Hin.
  assert (Hget : ∀ p h, lists_method "GET" (mkRoute p (Some ["GET"]) h))
    by (intros p h; exists ["GET"]; split; [done | apply list_elem_of_here]).
  destruct (scope req !! "user").
  - apply elem_of_cons in Hin as [->|Hin];
      [|apply elem_of_cons in Hin as [->|Hin];
        [|by apply elem_of_nil in Hin]].
    + exists (mkRoute (default_prefix +:+ "/profile") (Some ["GET"])
                h_profile_page).
      split; [rewrite list_elem_of_In; simpl; tauto|]. split; [done|].
      right. apply Hget.
    + exists (mkRoute (default_prefix +:+ "/logout") None h_logout).
      split; [rewrite list_elem_of_In; simpl; tauto|]. split; [done|].
      by left.
  - apply elem_of_cons in Hin as [->|Hin]; [|by apply elem_of_nil in Hin].
    exists (mkRoute (default_prefix +:+ "/login") (Some ["GET"]) h_login_page).
    split; [rewrite list_elem_of_In; simpl; tauto|]. split; [done|].
    right. apply Hget.
Qed.

(** * Further properties of table initialisation *)

Section DatabaseMore.
Variables User_model Session_model : Model.

(** X16: When both tables already exist, [initialize_auth_tables] changes
    nothing in the database, whatever the models say about fields and keys:
    it only fills in the two table references. *)
Theorem initialize_existing_tables_untouched self :
  is_Some (db self !! model_name User_model) →
  is_Some (db self !! model_name Session_model) →
  let out := initialize_auth_tables User_model Session_model self in
  out.2 = db self ∧
  db out.1 = db self ∧
  users out.1 = Some (model_name User_model) ∧
  sessions out.1 = Some (model_name Session_model) ∧
  db_path out.1 = db_path self ∧
  audit_log out.1 = audit_log self.
Proof.
  intros Hu Hs. cbv zeta. rewrite initialize_auth_tables_eq. cbv zeta.
  rewrite (db_create_present User_model _ (db self) Hu). cbn [snd].
  by rewrite (db_create_present Session_model _ (db self) Hs).
Qed.

Lemma db_create_dom cls pk (d : gmap string Table) :
  dom (db_create cls pk d).2 = {[model_name cls]} ∪ dom d.
Proof.
  unfold db_create. destruct (d !! model_name cls) eqn:E; simpl.
  - assert (model_name cls ∈ dom d) by (apply elem_of_dom; by eexists).
    set_solver.
  - by rewrite dom_insert_L.
Qed.

Lemma db_create_rows cls pk (d : gmap string Table) :
  (∀ n t, d !! n = Some t → tbl_rows t = []) →
  ∀ n t, (db_create cls pk d).2 !! n = Some t → tbl_rows t = [].
Proof.
  intros Hd n t. unfold db_create.
  destruct (d !! model_name cls) eqn:E; simpl; [apply Hd|].
  rewrite lookup_insert. case_decide; [by intros [= <-] | apply Hd].
Qed.

(** X17: On a database with no tables [initialize_auth_tables] creates the two
    tables and nothing else, and both are empty; in general it adds exactly
    the two table names to those present. *)
Theorem initialize_creates_two_tables self :
  let handle := (initialize_auth_tables User_model Session_model self).2 in
  dom handle
    = {[model_name User_model; model_name Session_model]} ∪ dom (db self) ∧
  (db self = ∅ →
   dom handle = {[model_name User_model; model_name Session_model]} ∧
   ∀ n t, handle !! n = Some t → tbl_rows t = []).
Proof.
  cbv zeta. rewrite initialize_auth_tables_eq. cbv zeta. cbn [snd].
  rewrite !db_create_dom. split; [set_solver|].
  intros Hempty. rewrite Hempty, dom_empty_L. split; [set_solver|].
  apply db_create_rows, db_create_rows. intros n t.
  by rewrite lookup_empty.
Qed.

End DatabaseMore.

(** * Further properties of [strip] *)

Lemma all_space_app l r :
  all_space (l +:+ r) = all_space l && all_space r.
Proof.
  induction l as [|c l IH]; [done|]. rewrite append_cons. simpl.
  by rewrite IH, andb_assoc.
Qed.

(** X18: [strip] cuts a string into leading whitespace, the result and trailing
    whitespace; stripping twice is stripping once; and the result is empty
    exactly when the string is whitespace throughout. *)
Theorem strip_characterised s :
  (∃ l r, all_space l = true ∧ all_space r = true ∧
          s = l +:+ strip s +:+ r) ∧
  strip (strip s) = strip s ∧
  (strip s = "" ↔ all_space s = true).
Proof.
  split; [apply strip_decompose|]. split; [apply strip_idemp|]. split.
  - intros Hs. destruct (strip_decompose s) as (l & r & Hl & Hr & Heq).
    rewrite Heq, Hs, append_nil_l, all_space_app. by rewrite Hl, Hr.
  - intros Hs. unfold strip. by rewrite (lstrip_all_space s Hs).
Qed.

(** * The test runner *)

Lemma py_sum_from (l : list bool) (a : Z) :
  fold_left (λ acc (b : bool), acc + (if b then 1 else 0)) l a = a + py_sum l.
Proof.
  unfold py_sum. revert a. induction l as [|b l IH]; intros a; simpl.
  - lia.
  - rewrite (IH (a + _)), (IH (0 + _)). lia.
Qed.

Lemma py_sum_cons b l : py_sum (b :: l) = (if b then 1 else 0) + py_sum l.
Proof. unfold py_sum at 1. simpl. by rewrite py_sum_from. Qed.

Lemma py_sum_bounds l : 0 ≤ py_sum l ≤ Z.of_nat (length l).
Proof.
  induction l as [|b l IH]; [done|].
  rewrite py_sum_cons. simpl length. destruct b; lia.
Qed.

Lemma py_sum_full l :
  py_sum l = Z.of_nat (length l) ↔ Forall (λ b, b = true) l.
Proof.
  induction l as [|b l IH]; [by split|].
  rewrite py_sum_cons, Forall_cons. simpl length.
  pose proof (py_sum_bounds l). destruct b; split.
  - intros Hs. split; [done|]. apply IH. lia.
  - intros [_ Hl]. apply IH in Hl. lia.
  - lia.
  - by intros [? _].
Qed.

(** X19: [main] reports success exactly when every test function returned
    [True]: a test that returns [False] and a test that raises both make it
    fail, and the process exit code is 0 on success and 1 otherwise. *)
Theorem main_succeeds_iff_all_pass outs :
  (main outs = true ↔ Forall (λ o, o = Returned true) outs) ∧
  (exit_code (main outs) = 0 ↔ Forall (λ o, o = Returned true) outs) ∧
  (exit_code (main outs) = 0 ∨ exit_code (main outs) = 1).
Proof.
  assert (Hmain : main outs = true ↔ Forall (λ o, o = Returned true) outs).
  { unfold main. rewrite Z.eqb_eq, py_sum_full. unfold collect_results.
    rewrite Forall_fmap. apply Forall_proper; [|done].
    intros [[|]|]; simpl; split; try done. }
  split; [exact Hmain|]. split.
  - rewrite <- Hmain. unfold exit_code. by destruct (main outs).
  - unfold exit_code. destruct (main outs); auto.
Qed.

(** * The further properties at concrete inputs *)

Section MoreExamples.
Import Fixture Sample.

(** alice logs in, then carol on the same session: only carol is left. *)
Lemma relogin_replaces_identity_witness :
  sess (login_submit "/auth" login_carol
          (login_submit "/auth" login_plain (mkWorld ∅ store2 [])).2).2
    !! "auth" = Some (VStr "carol").
Proof.
  set (alice' := touch_login (now store2) alice).
  set (carol' := touch_login (now store2) carol).
  set (st1 := mkStore [alice'; carol] 3 (now store2)).
  set (st2 := mkStore [alice'; carol'] 3 (now store2)).
  assert (Hfirst : authenticate (login_name login_plain)
                     (login_pass login_plain) (store (mkWorld ∅ store2 []))
                   = (Some alice', st1)) by (vm_compute; reflexivity).
  assert (Hsecond : authenticate (login_name login_carol)
                      (login_pass login_carol) st1 = (Some carol', st2))
    by (vm_compute; reflexivity).
  destruct (relogin_replaces_identity "/auth" login_plain login_carol
              (mkWorld ∅ store2 []) alice' st1 carol' st2 Hfirst Hsecond)
    as (_ & Hauth & _).
  exact Hauth.
Defined.

(** carol logs in over a stale session after a logout: the stale keys are
    gone. *)
Lemma logout_then_login_session_witness :
  dom (sess ((logout "/auth" ;; login_submit "/auth" login_carol)
               stale_world).2)
    = {["auth"; "user_id"; "role"]}.
Proof.
  set (carol' := touch_login (now store2) carol).
  assert (Hauth : authenticate (login_name login_carol)
                    (login_pass login_carol) (store stale_world)
                  = (Some carol', mkStore [alice; carol'] 3 (now store2)))
    by (vm_compute; reflexivity).
  destruct (logout_then_login_session "/auth" login_carol stale_world
              carol' _ Hauth) as [_ Hdom].
  exact Hdom.
Defined.

(** bob registers; logging bob in on the same starting session gives the
    session the registration left. *)
Lemma register_and_login_agree_witness :
  sess (login_submit "/auth"
          (post [("username", "bob"); ("password", "hunter22")])
          (mkWorld ∅ (register_submit "/auth" register_new world0).2.(store)
             [])).2
    = sess (register_submit "/auth" register_new world0).2.
Proof.
  set (bob := mkUser 2 "bob" "bob@example.com" "$2b$hunter22" "user" true
                (now store0) (now store0)).
  set (st1 := mkStore [alice; bob] 3 (now store0)).
  assert (Hst : store (register_submit "/auth" register_new world0).2 = st1)
    by (vm_compute; reflexivity).
  rewrite Hst.
  apply (register_and_login_agree "/auth" register_new
           (post [("username", "bob"); ("password", "hunter22")])
           world0 (mkWorld ∅ st1 []) bob st1
           (touch_login (now st1) bob)
           (mkStore [alice; touch_login (now st1) bob] 3 (now st1)));
    vm_compute; reflexivity.
Defined.

Lemma login_blank_fields_default_empty_witness :
  ∃ p, calls (login_submit "/auth" blank_login world0).2
         = calls world0 ++ [CallAuthenticate "" p] ∧
       (form blank_login !! "password" = None → p = "") ∧
       (∀ v, form blank_login !! "password" = Some v → p = v).
Proof.
  apply (login_blank_fields_default_empty "/auth" blank_login world0).
  right. exists "   ". split; vm_compute; reflexivity.
Defined.

Lemma register_empty_form_reaches_create_witness :
  calls (register_submit "/auth" empty_form empty_world).2
    = calls empty_world ++ [CallGetByUsername ""; CallCreate "" "" ""].
Proof.
  apply (register_empty_form_reaches_create "/auth" empty_form empty_world);
    vm_compute; reflexivity.
Defined.

Lemma initialize_existing_tables_untouched_witness :
  (initialize_auth_tables user_model session_model populated_db).2
    = db populated_db.
Proof.
  destruct (initialize_existing_tables_untouched user_model session_model
              populated_db) as [Hdb _].
  - vm_compute. by eexists.
  - vm_compute. by eexists.
  - exact Hdb.
Defined.

Lemma home_links_are_registered_witness :
  ∃ rte,
    rte ∈ added []
            (register_all ∅ default_prefix (AuthRoutes_init [])).2 ∧
    route_path rte = "/auth/login" ∧
    (route_methods rte = None ∨ lists_method "GET" rte).
Proof.
  apply (home_links_are_registered ∅ [] profile_request "/auth/login").
  vm_compute. apply list_elem_of_here.
Defined.

Lemma register_padded_name_is_taken_witness :
  (register_submit "/auth" register_padded_alice world0).1
    = RedirectResponse "/auth/register?error=username_taken" 303.
Proof.
  rewrite (register_padded_name_is_taken "/auth" register_padded_alice world0
             alice "alice" (String "009"%char "") "  ");
    vm_compute; reflexivity.
Defined.

(** alice logs in with a space on each side of her name: the repository is
    asked about the bare name and the password as typed. *)
Lemma submitted_names_are_stripped_witness :
  calls (login_submit "/auth" login_ok world0).2
    = calls world0 ++ [CallAuthenticate "alice" "secret123"].
Proof.
  destruct (submitted_names_are_stripped "/auth" world0) as [Hlogin _].
  apply (Hlogin login_ok " " "alice" " " "secret123");
    vm_compute; reflexivity.
Defined.

End MoreExamples.
